(** * The [Account] class of the ATM simulation

    A shallow embedding of the class [Account] of
    [# ATM Machine Simulation in Python.py] and the properties of its
    operations.

    - Amounts and balances are Python [float]s, that is IEEE-754 binary64
      numbers: they are Rocq's primitive floats, with the same rounding
      (to nearest, ties to even), the same infinities and the same NaN.
    - A Python [str] is a sequence of Unicode code points.
    - The transaction history is a Python [list], a mutable object that
      lives in the heap; the account holds a reference to it. *)

From Stdlib Require Import ZArith NArith QArith Zpower Floats.
From Stdlib Require Import String Ascii DecimalString.
From stdpp Require Import base option list gmap.

Local Open Scope list_scope.

(** ** Python strings *)

Module Str.

(** A [str] is the list of its code points. *)
Definition t : Type := list N.

(** An ASCII literal of the source. *)
Definition lit (s : string) : t :=
  List.map N_of_ascii (list_ascii_of_string s).

(** [len(s)]. *)
Definition len (s : t) : nat := length s.

(** [a == b] on strings compares code point by code point. *)
Fixpoint eqb (a b : t) : bool :=
  match a, b with
  | [], [] => true
  | x :: a', y :: b' => N.eqb x y && eqb a' b'
  | _, _ => false
  end.

(** The code points [c] with [chr(c).isdigit()], as closed intervals:
    the characters whose Unicode property Numeric_Type is Decimal or
    Digit (CPython 3.11, Unicode 14.0.0). Besides the decimal digits of
    every script they include the superscripts U+00B2, U+00B3, U+00B9,
    the subscripts and the circled digits. *)
Definition digit_ranges : list (N * N) :=
  [ (48, 57); (178, 179); (185, 185); (1632, 1641); (1776, 1785);
    (1984, 1993); (2406, 2415); (2534, 2543); (2662, 2671); (2790, 2799);
    (2918, 2927); (3046, 3055); (3174, 3183); (3302, 3311); (3430, 3439);
    (3558, 3567); (3664, 3673); (3792, 3801); (3872, 3881); (4160, 4169);
    (4240, 4249); (4969, 4977); (6112, 6121); (6160, 6169); (6470, 6479);
    (6608, 6618); (6784, 6793); (6800, 6809); (6992, 7001); (7088, 7097);
    (7232, 7241); (7248, 7257); (8304, 8304); (8308, 8313); (8320, 8329);
    (9312, 9320); (9332, 9340); (9352, 9360); (9450, 9450); (9461, 9469);
    (9471, 9471); (10102, 10110); (10112, 10120); (10122, 10130);
    (42528, 42537); (43216, 43225); (43264, 43273); (43472, 43481);
    (43504, 43513); (43600, 43609); (44016, 44025); (65296, 65305);
    (66720, 66729); (68160, 68163); (68912, 68921); (69216, 69224);
    (69714, 69722); (69734, 69743); (69872, 69881); (69942, 69951);
    (70096, 70105); (70384, 70393); (70736, 70745); (70864, 70873);
    (71248, 71257); (71360, 71369); (71472, 71481); (71904, 71913);
    (72016, 72025); (72784, 72793); (73040, 73049); (73120, 73129);
    (92768, 92777); (92864, 92873); (93008, 93017); (120782, 120831);
    (123200, 123209); (123632, 123641); (125264, 125273);
    (127232, 127242); (130032, 130041) ]%N.

Definition in_range (c : N) (r : N * N) : bool :=
  (N.leb (fst r) c && N.leb c (snd r))%bool.

Definition char_isdigit (c : N) : bool :=
  existsb (in_range c) digit_ranges.

(** [s.isdigit()]: every character is a digit and there is at least
    one character. *)
Definition isdigit (s : t) : bool :=
  match s with
  | [] => false
  | _ => forallb char_isdigit s
  end.

(** The characters [0] to [9]. *)
Definition ascii_digit (c : N) : bool := (N.leb 48 c && N.leb c 57)%bool.

(** A code point of the ASCII range. *)
Definition is_ascii (c : N) : bool := N.ltb c 128.

(** Exactly four decimal digits, the PIN format. *)
Definition four_decimal_digits (s : t) : bool :=
  (Nat.eqb (len s) 4 && forallb ascii_digit s)%bool.

End Str.

(** ** Python floats *)

Module Float.

(** [round_half_even num den] is the integer nearest to [num / den]
    (for [0 <= num] and [0 < den]); a tie goes to the even one. *)
Definition round_half_even (num den : Z) : Z :=
  let q := (num / den)%Z in
  let r := (num mod den)%Z in
  match (2 * r ?= den)%Z with
  | Lt => q
  | Gt => (q + 1)%Z
  | Eq => if Z.even q then q else (q + 1)%Z
  end.

(** The magnitude [m * 2^e] in hundredths, correctly rounded. *)
Definition hundredths (m : positive) (e : Z) : Z :=
  if (0 <=? e)%Z then (Z.pos m * 2 ^ e * 100)%Z
  else round_half_even (Z.pos m * 100) (2 ^ (- e)).

Definition decimal (n : Z) : Str.t :=
  Str.lit (NilZero.string_of_uint (N.to_uint (Z.to_N n))).

Definition digit (d : Z) : N := (48 + Z.to_N d)%N.

(** Sign, integer part, point, two decimals. *)
Definition fixed2 (negative : bool) (h : Z) : Str.t :=
  (if negative then Str.lit "-" else [])
    ++ decimal (h / 100)
    ++ Str.lit "."
    ++ [digit (h mod 100 / 10); digit (h mod 10)].

(** [f"{x:.2f}"]: the exact binary value of [x] rounded to two decimals,
    ties to even; [nan] and [inf] by name. *)
Definition format_2f (x : float) : Str.t :=
  match Prim2SF x with
  | S754_nan => Str.lit "nan"
  | S754_infinity s => Str.lit (if s then "-inf" else "inf")
  | S754_zero s => fixed2 s 0
  | S754_finite s m e => fixed2 s (hundredths m e)
  end.

(** Zero, positive or [nan]: what the test [x < 0] refuses. *)
Definition not_negative (x : spec_float) : Prop :=
  match x with
  | S754_zero _ | S754_nan => True
  | S754_infinity s | S754_finite s _ _ => s = false
  end.

(** The exact rational value of a finite float. *)
Definition exact (x : float) : option Q :=
  match Prim2SF x with
  | S754_zero _ => Some 0%Q
  | S754_finite s m e =>
      let v := (inject_Z (Z.pos m) * Qpower 2 e)%Q in
      Some (if s then Qopp v else v)
  | _ => None
  end.

End Float.

(** ** The heap of list objects *)

(** A reference to a list object. *)
Abbreviation loc := positive (only parsing).

(** The list objects of the program, by reference. *)
Abbreviation heap := (gmap positive (list Str.t)) (only parsing).

(** [self.transaction_history.append(x)], on the list that [l] refers
    to. *)
Definition list_append (l : loc) (x : Str.t) (h : heap) : heap :=
  alter (fun xs => xs ++ [x]) l h.

(** ** class Account *)

Record Account : Type := {
  pin : Str.t;
  balance : float;
  transaction_history : loc
}.

(** [self.balance = b] and [self.pin = p]. *)
Definition set_balance (self : Account) (b : float) : Account :=
  {| pin := pin self; balance := b;
     transaction_history := transaction_history self |}.

Definition set_pin (self : Account) (p : Str.t) : Account :=
  {| pin := p; balance := balance self;
     transaction_history := transaction_history self |}.

(** What a method returns with, next to its value: the account and the
    heap as it leaves them. *)
Definition returns (A : Type) : Type := (A * Account * heap)%type.

(** [Account(pin, balance)]: the arguments are stored as they are and the
    history is a new, empty list. *)
Definition __init__ (pin : Str.t) (balance : float) (h : heap) : Account * heap :=
  let l := fresh (dom h) in
  ({| pin := pin; balance := balance; transaction_history := l |},
   <[l := []]> h).

Definition check_balance (self : Account) (h : heap) : returns float :=
  (balance self, self, h).

Definition withdraw (self : Account) (amount : float) (h : heap)
  : returns (bool * Str.t) :=
  if PrimFloat.leb amount 0 then
    ((false, Str.lit "Withdrawal amount must be positive."), self, h)
  else if PrimFloat.ltb (balance self) amount then
    ((false, Str.lit "Insufficient funds."), self, h)
  else
    let self' := set_balance self (PrimFloat.sub (balance self) amount) in
    let h' :=
      list_append (transaction_history self)
        (Str.lit "Withdrew $" ++ Float.format_2f amount) h in
    ((true,
      Str.lit "Successfully withdrew $" ++ Float.format_2f amount
        ++ Str.lit ". New balance: $" ++ Float.format_2f (balance self')),
     self', h').

Definition deposit (self : Account) (amount : float) (h : heap)
  : returns (bool * Str.t) :=
  if PrimFloat.leb amount 0 then
    ((false, Str.lit "Deposit amount must be positive."), self, h)
  else
    let self' := set_balance self (PrimFloat.add (balance self) amount) in
    let h' :=
      list_append (transaction_history self)
        (Str.lit "Deposited $" ++ Float.format_2f amount) h in
    ((true,
      Str.lit "Successfully deposited $" ++ Float.format_2f amount
        ++ Str.lit ". New balance: $" ++ Float.format_2f (balance self')),
     self', h').

Definition change_pin (self : Account) (old_pin new_pin : Str.t) (h : heap)
  : returns (bool * Str.t) :=
  if negb (Str.eqb old_pin (pin self)) then
    ((false, Str.lit "Incorrect current PIN."), self, h)
  else if (negb (Str.isdigit new_pin)
           || negb (Nat.eqb (Str.len new_pin) 4))%bool then
    ((false, Str.lit "New PIN must be a 4-digit number."), self, h)
  else
    ((true, Str.lit "PIN successfully changed."),
     set_pin self new_pin,
     list_append (transaction_history self) (Str.lit "PIN changed") h).

(** The list itself is returned, not a copy of it. *)
Definition get_transaction_history (self : Account) (h : heap) : returns loc :=
  (transaction_history self, self, h).

(** The records of the account, read through its reference. *)
Definition history (self : Account) (h : heap) : list Str.t :=
  default [] (h !! transaction_history self).

(** ** Sequences of calls *)

Inductive call : Type :=
| CheckBalance
| Withdraw (amount : float)
| Deposit (amount : float)
| ChangePin (old_pin new_pin : Str.t)
| GetTransactionHistory.

Inductive value : Type :=
| VFloat (x : float)
| VStatus (r : bool * Str.t)
| VList (l : loc).

Definition invoke (c : call) (self : Account) (h : heap) : returns value :=
  match c with
  | CheckBalance =>
      let '(x, self', h') := check_balance self h in (VFloat x, self', h')
  | Withdraw amount =>
      let '(r, self', h') := withdraw self amount h in (VStatus r, self', h')
  | Deposit amount =>
      let '(r, self', h') := deposit self amount h in (VStatus r, self', h')
  | ChangePin old_pin new_pin =>
      let '(r, self', h') := change_pin self old_pin new_pin h in
      (VStatus r, self', h')
  | GetTransactionHistory =>
      let '(l, self', h') := get_transaction_history self h in
      (VList l, self', h')
  end.

(** The calls with what each returned, and the state after the last. *)
Fixpoint run (cs : list call) (self : Account) (h : heap)
  : returns (list (call * value)) :=
  match cs with
  | [] => ([], self, h)
  | c :: cs' =>
      let '(v, self1, h1) := invoke c self h in
      let '(vs, self2, h2) := run cs' self1 h1 in
      ((c, v) :: vs, self2, h2)
  end.

(** A call succeeded when it returned [(True, message)]. *)
Definition succeeded (cv : call * value) : bool :=
  match snd cv with
  | VStatus (true, _) => true
  | _ => false
  end.

(** A call failed when it returned [(False, message)]. *)
Definition failed (v : value) : bool :=
  match v with
  | VStatus (false, _) => true
  | _ => false
  end.

(** The record a successful call leaves in the history. *)
Definition record_of (c : call) : list Str.t :=
  match c with
  | Withdraw amount => [Str.lit "Withdrew $" ++ Float.format_2f amount]
  | Deposit amount => [Str.lit "Deposited $" ++ Float.format_2f amount]
  | ChangePin _ _ => [Str.lit "PIN changed"]
  | _ => []
  end.

(** What a successful call does to the balance. *)
Definition settle (b : float) (c : call) : float :=
  match c with
  | Withdraw amount => PrimFloat.sub b amount
  | Deposit amount => PrimFloat.add b amount
  | _ => b
  end.

(** ** The failures of the specification

    The source reports a failure as [(False, message)]; the specification
    names the kinds of failure. Each message of the source is one kind. *)

Inductive error_kind : Type :=
| InvalidAmount
| InsufficientFunds
| AuthenticationFailed
| InvalidPinFormat.

Definition messages_of (k : error_kind) : list Str.t :=
  match k with
  | InvalidAmount =>
      [Str.lit "Withdrawal amount must be positive.";
       Str.lit "Deposit amount must be positive."]
  | InsufficientFunds => [Str.lit "Insufficient funds."]
  | AuthenticationFailed => [Str.lit "Incorrect current PIN."]
  | InvalidPinFormat => [Str.lit "New PIN must be a 4-digit number."]
  end.

Definition fails_with (k : error_kind) (r : bool * Str.t) : Prop :=
  fst r = false /\ In (snd r) (messages_of k).

(** A call is rejected when it fails and leaves the account and the heap,
    so the balance, the PIN and the history, as they were. *)
Definition rejected (k : error_kind) (self : Account) (h : heap)
    (out : returns (bool * Str.t)) : Prop :=
  exists r, out = (r, self, h) /\ fails_with k r.

(** ** A session

    The account of [atm_simulation], [Account(pin="1234", balance=1000.00)],
    with its empty history at the first reference. *)

Definition atm_account : Account :=
  {| pin := Str.lit "1234"; balance := 1000; transaction_history := 1%positive |}.

Definition atm_heap : heap := {[ 1%positive := [] ]}.

(** ** Exact amounts

    What the rounded arithmetic of the source is compared with: the
    arithmetic of the rationals on the exact values of the floats. *)

(** [new] is [old] less [amount], exactly. *)
Definition exactly_decreased (old new amount : float) : Prop :=
  match Float.exact old, Float.exact new, Float.exact amount with
  | Some o, Some n, Some a => (n == o - a)%Q
  | _, _, _ => False
  end.

(** The calls of a run that succeeded, in order. *)
Definition successes (trace : list (call * value)) : list call :=
  List.map fst (List.filter succeeded trace).

(** The amounts deposited and the amounts withdrawn by a list of calls. *)
Definition deposited (c : call) : list float :=
  match c with Deposit amount => [amount] | _ => [] end.

Definition withdrawn (c : call) : list float :=
  match c with Withdraw amount => [amount] | _ => [] end.

(** The sum of the exact values. *)
Fixpoint exact_sum (xs : list float) : option Q :=
  match xs with
  | [] => Some 0%Q
  | x :: xs' =>
      match Float.exact x, exact_sum xs' with
      | Some q, Some r => Some (q + r)%Q
      | _, _ => None
      end
  end.

(** The sum as Python's [sum] computes it, rounding after every term. *)
Definition float_sum (xs : list float) : float :=
  fold_left PrimFloat.add xs 0%float.

(** "final balance = initial balance + deposits - withdrawals", exactly,
    over the successful calls of a run. *)
Definition balance_equation (initial final : float)
    (trace : list (call * value)) : Prop :=
  match Float.exact initial, Float.exact final,
        exact_sum (flat_map deposited (successes trace)),
        exact_sum (flat_map withdrawn (successes trace)) with
  | Some i, Some f, Some d, Some w => (f == i + d - w)%Q
  | _, _, _, _ => False
  end.

(** The addition or subtraction that the call [c] makes at the balance
    [b] does not round: its binary64 result is the exact result. *)
Definition exact_step (b : float) (c : call) : Prop :=
  match c with
  | Deposit amount =>
      match Float.exact b, Float.exact amount,
            Float.exact (PrimFloat.add b amount) with
      | Some qb, Some qa, Some qr => (qr == qb + qa)%Q
      | _, _, _ => False
      end
  | Withdraw amount => exactly_decreased b (PrimFloat.sub b amount) amount
  | _ => True
  end.

(** No step of the calls [cs], made in turn from the balance [b], rounds. *)
Fixpoint exact_steps (b : float) (cs : list call) : Prop :=
  match cs with
  | [] => True
  | c :: cs' => exact_step b c /\ exact_steps (settle b c) cs'
  end.

(** Every new PIN of these calls is made of ASCII characters. *)
Definition ascii_new_pin (c : call) : bool :=
  match c with
  | ChangePin _ new_pin => forallb Str.is_ascii new_pin
  | _ => true
  end.

(** ** The terminal

    [atm_simulation] reads lines with [input] and writes with [print].
    The lines that will be typed are a list; [input] takes the first one
    and raises [EOFError] when there is none. What is written is kept
    write by write: [print(s)] writes [s] and a newline, [input(prompt)]
    writes the prompt. *)

Definition newline : Str.t := [10%N].

Definition print (s : Str.t) : Str.t := s ++ newline.

(** How [atm_simulation] ends: it returns, or an [input] found no line. *)
Inductive exit_status : Type :=
| Returned
| EOFError.

(** A session when it has ended: what it wrote, the lines it left unread,
    the account and the heap as it leaves them, and how it ended. *)
Record session : Type := {
  written : list Str.t;
  unread : list Str.t;
  final_account : Account;
  final_heap : heap;
  status : exit_status
}.

(** The session [s], after [chunks] have been written. *)
Definition after (chunks : list Str.t) (s : session) : session :=
  {| written := chunks ++ written s; unread := unread s;
     final_account := final_account s; final_heap := final_heap s;
     status := status s |}.

(** [enumerate(l, start)]. *)
Fixpoint enumerate {A : Type} (l : list A) (start : Z) : list (Z * A) :=
  match l with
  | [] => []
  | x :: l' => (start, x) :: enumerate l' (start + 1)%Z
  end.

(** The six options and the prompt, as the loop writes them each time. *)
Definition menu_text : list Str.t :=
  [print (Str.lit "Please choose from the following options:");
   print (Str.lit "1. Account Balance Inquiry");
   print (Str.lit "2. Cash Withdrawal");
   print (Str.lit "3. Cash Deposit");
   print (Str.lit "4. PIN Change");
   print (Str.lit "5. Transaction History");
   print (Str.lit "6. Exit");
   Str.lit "Enter the number corresponding to your choice: "].

(** What option 5 writes for the records [records]. *)
Definition history_text (records : list Str.t) : list Str.t :=
  match records with
  | [] => [print (Str.lit "No transactions have been made yet." ++ newline)]
  | _ =>
      [print (Str.lit "Transaction History:")]
        ++ List.map
             (fun it => print (Float.decimal (fst it) ++ Str.lit ". " ++ snd it))
             (enumerate records 1)
        ++ [print []]
  end.

(** How the three attempts at the PIN end. *)
Inductive login : Type :=
| Granted
| LockedOut
| NoLine.

Section Session.

(** Python's built-in [float] on a string: the number, or [None] where it
    raises [ValueError]. It is no code of this program: everything below
    holds for whatever it does. *)
Variable parse_float : Str.t -> option float.

(** [while True:], one turn of the loop for each choice that is read. *)
Fixpoint menu_loop (lines : list Str.t) (account : Account) (h : heap)
  : session :=
  match lines with
  | [] =>
      {| written := menu_text; unread := []; final_account := account;
         final_heap := h; status := EOFError |}
  | choice :: lines1 =>
      after (menu_text ++ [print []])
        (if Str.eqb choice (Str.lit "1") then
           let '(balance, account, h) := check_balance account h in
           after [print (Str.lit "Your current balance is: $"
                           ++ Float.format_2f balance ++ newline)]
             (menu_loop lines1 account h)
         else if Str.eqb choice (Str.lit "2") then
           match lines1 with
           | [] =>
               {| written := [Str.lit "Enter the amount to withdraw: $"];
                  unread := []; final_account := account; final_heap := h;
                  status := EOFError |}
           | amount_str :: lines2 =>
               after [Str.lit "Enter the amount to withdraw: $"]
                 match parse_float amount_str with
                 | Some amount =>
                     let '(r, account, h) := withdraw account amount h in
                     after [print (snd r ++ newline)]
                       (menu_loop lines2 account h)
                 | None =>
                     after [print (Str.lit "Invalid input. Please enter a numeric value."
                                     ++ newline)]
                       (menu_loop lines2 account h)
                 end
           end
         else if Str.eqb choice (Str.lit "3") then
           match lines1 with
           | [] =>
               {| written := [Str.lit "Enter the amount to deposit: $"];
                  unread := []; final_account := account; final_heap := h;
                  status := EOFError |}
           | amount_str :: lines2 =>
               after [Str.lit "Enter the amount to deposit: $"]
                 match parse_float amount_str with
                 | Some amount =>
                     let '(r, account, h) := deposit account amount h in
                     after [print (snd r ++ newline)]
                       (menu_loop lines2 account h)
                 | None =>
                     after [print (Str.lit "Invalid input. Please enter a numeric value."
                                     ++ newline)]
                       (menu_loop lines2 account h)
                 end
           end
         else if Str.eqb choice (Str.lit "4") then
           match lines1 with
           | [] =>
               {| written := [Str.lit "Enter your current PIN: "];
                  unread := []; final_account := account; final_heap := h;
                  status := EOFError |}
           | old_pin :: [] =>
               {| written := [Str.lit "Enter your current PIN: ";
                              Str.lit "Enter your new 4-digit PIN: "];
                  unread := []; final_account := account; final_heap := h;
                  status := EOFError |}
           | old_pin :: new_pin :: lines3 =>
               let '(r, account, h) := change_pin account old_pin new_pin h in
               after [Str.lit "Enter your current PIN: ";
                      Str.lit "Enter your new 4-digit PIN: ";
                      print (snd r ++ newline)]
                 (menu_loop lines3 account h)
           end
         else if Str.eqb choice (Str.lit "5") then
           let '(l, account, h) := get_transaction_history account h in
           after (history_text (default [] (h !! l)))
             (menu_loop lines1 account h)
         else if Str.eqb choice (Str.lit "6") then
           {| written := [print (Str.lit "Thank you for using the ATM Simulation. Goodbye!")];
              unread := lines1; final_account := account; final_heap := h;
              status := Returned |}
         else
           after [print (Str.lit "Invalid selection. Please choose a valid option."
                           ++ newline)]
             (menu_loop lines1 account h))
  end.

(** [for attempt in range(3):] with its [else:], read as "[attempts] more
    attempts": what is written, the lines left, and how it ends. *)
Fixpoint pin_attempts (attempts : nat) (lines : list Str.t) (account : Account)
  : list Str.t * list Str.t * login :=
  match attempts with
  | O =>
      ([print (Str.lit "Too many incorrect PIN attempts. Exiting.")],
       lines, LockedOut)
  | S attempts' =>
      match lines with
      | [] => ([Str.lit "Please enter your 4-digit PIN: "], [], NoLine)
      | entered_pin :: lines' =>
          if Str.eqb entered_pin (pin account) then
            ([Str.lit "Please enter your 4-digit PIN: ";
              print (Str.lit "PIN accepted. Access granted." ++ newline)],
             lines', Granted)
          else
            let '(chunks, rest, end_) := pin_attempts attempts' lines' account in
            ([Str.lit "Please enter your 4-digit PIN: ";
              print (Str.lit "Incorrect PIN. Please try again." ++ newline)]
               ++ chunks,
             rest, end_)
      end
  end.

Definition atm_simulation (lines : list Str.t) : session :=
  let '(account, h) := __init__ (Str.lit "1234") 1000 ∅ in
  after [print (Str.lit "Welcome to the ATM Simulation.")]
    (let '(chunks, rest, end_) := pin_attempts 3 lines account in
     after chunks
       match end_ with
       | Granted => menu_loop rest account h
       | LockedOut =>
           {| written := []; unread := rest; final_account := account;
              final_heap := h; status := Returned |}
       | NoLine =>
           {| written := []; unread := rest; final_account := account;
              final_heap := h; status := EOFError |}
       end).

(** The calls of [Account] that the loop makes, in order. Which they are
    depends on the lines alone: the loop never looks at what a call
    returned but to print it. *)
Fixpoint session_calls (lines : list Str.t) : list call :=
  match lines with
  | [] => []
  | choice :: lines1 =>
      if Str.eqb choice (Str.lit "1") then CheckBalance :: session_calls lines1
      else if Str.eqb choice (Str.lit "2") then
        match lines1 with
        | [] => []
        | amount_str :: lines2 =>
            match parse_float amount_str with
            | Some amount => Withdraw amount :: session_calls lines2
            | None => session_calls lines2
            end
        end
      else if Str.eqb choice (Str.lit "3") then
        match lines1 with
        | [] => []
        | amount_str :: lines2 =>
            match parse_float amount_str with
            | Some amount => Deposit amount :: session_calls lines2
            | None => session_calls lines2
            end
        end
      else if Str.eqb choice (Str.lit "4") then
        match lines1 with
        | old_pin :: new_pin :: lines3 =>
            ChangePin old_pin new_pin :: session_calls lines3
        | _ => []
        end
      else if Str.eqb choice (Str.lit "5") then
        GetTransactionHistory :: session_calls lines1
      else if Str.eqb choice (Str.lit "6") then []
      else session_calls lines1
  end.

End Session.

(** ** Words for the properties of the calls and of the session *)

(** The account and the heap after the calls [cs]. *)
Definition state_after (cs : list call) (self : Account) (h : heap)
  : Account * heap :=
  (snd (fst (run cs self h)), snd (run cs self h)).

(** The account and the heap at the end of a session. *)
Definition final_state (s : session) : Account * heap :=
  (final_account s, final_heap s).


(** The call [c] is a [change_pin] that presents [p] as the current PIN. *)
Definition presents (p : Str.t) (c : call) : bool :=
  match c with
  | ChangePin old_pin _ => Str.eqb old_pin p
  | _ => false
  end.

(** The test that [change_pin] makes of a new PIN. *)
Definition passes_pin_test (s : Str.t) : bool :=
  (Str.isdigit s && Nat.eqb (Str.len s) 4)%bool.

(** The call [c] moves money when it succeeds. *)
Definition moves_money (c : call) : bool :=
  match c with
  | Withdraw _ | Deposit _ => true
  | _ => false
  end.

(** One of the first three lines is the PIN of the session. *)
Definition knows_pin (lines : list Str.t) : bool :=
  existsb (fun s => Str.eqb s (Str.lit "1234")) (firstn 3 lines).

(** The choices of the menu that call a method which can change the
    account. *)
Definition changing_choice (s : Str.t) : bool :=
  (Str.eqb s (Str.lit "2") || Str.eqb s (Str.lit "3")
   || Str.eqb s (Str.lit "4"))%bool.

(** What the three attempts write before a refusal. *)
Definition refusal : list Str.t :=
  [Str.lit "Please enter your 4-digit PIN: ";
   print (Str.lit "Incorrect PIN. Please try again." ++ newline)].

(** The lines that the loop reads at the prompts for an amount. Which
    they are depends on the choices alone: the loop goes on to the next
    choice whatever [float] made of the amount. *)
Fixpoint amount_lines (lines : list Str.t) : list Str.t :=
  match lines with
  | [] => []
  | choice :: lines1 =>
      if Str.eqb choice (Str.lit "1") then amount_lines lines1
      else if (Str.eqb choice (Str.lit "2")
               || Str.eqb choice (Str.lit "3"))%bool then
        match lines1 with
        | [] => []
        | amount_str :: lines2 => amount_str :: amount_lines lines2
        end
      else if Str.eqb choice (Str.lit "4") then
        match lines1 with
        | _ :: _ :: lines3 => amount_lines lines3
        | _ => []
        end
      else if Str.eqb choice (Str.lit "5") then amount_lines lines1
      else if Str.eqb choice (Str.lit "6") then []
      else amount_lines lines1
  end.

(** The last thing a session writes when it returns. *)
Definition farewells : list Str.t :=
  [print (Str.lit "Thank you for using the ATM Simulation. Goodbye!");
   print (Str.lit "Too many incorrect PIN attempts. Exiting.")].

(** A stand-in for [float] in the examples: a string of one to fifteen of
    the characters [0] to [9] is the float of that integer, as for
    Python's [float]; every other string is refused, which Python's
    [float] does not do. *)
Definition parse_integer (s : Str.t) : option float :=
  if (negb (Nat.eqb (Str.len s) 0) && Nat.leb (Str.len s) 15
      && forallb Str.ascii_digit s)%bool
  then
    Some (fold_left
            (fun acc c => (acc * 10 + PrimFloat.of_uint63 (Uint63.of_Z (Z.of_N c - 48)))%float)
            s 0%float)
  else None.

Example format_200 : Float.format_2f 200 = Str.lit "200.00".
Proof. vm_compute. reflexivity. Qed.
Example format_tie_down : Float.format_2f 0.125 = Str.lit "0.12".
Proof. vm_compute. reflexivity. Qed.
Example format_tie_up : Float.format_2f 0.375 = Str.lit "0.38".
Proof. vm_compute. reflexivity. Qed.
Example format_small_negative : Float.format_2f (-0x1.0624dd2f1a9fcp-10) = Str.lit "-0.00".
Proof. vm_compute. reflexivity. Qed.
Example format_2_675 : Float.format_2f 0x1.5666666666666p+1 = Str.lit "2.67".
Proof. vm_compute. reflexivity. Qed.
Example format_999_995 : Float.format_2f 0x1.f3ff5c28f5c29p+9 = Str.lit "1000.00".
Proof. vm_compute. reflexivity. Qed.
Example format_1e22 : Float.format_2f 0x1.0f0cf064dd592p+73 = Str.lit "10000000000000000000000.00".
Proof. vm_compute. reflexivity. Qed.
Example format_denormal : Float.format_2f 0x0.0000000000001p-1022 = Str.lit "0.00".
Proof. vm_compute. reflexivity. Qed.
Example format_nan : Float.format_2f nan = Str.lit "nan".
Proof. vm_compute. reflexivity. Qed.
Example format_neg_inf : Float.format_2f neg_infinity = Str.lit "-inf".
Proof. vm_compute. reflexivity. Qed.
Example isdigit_superscript : Str.isdigit [178; 178; 178; 178]%N = true.
Proof. vm_compute. reflexivity. Qed.

(** ** The order of floats *)

Lemma SFcompare_antisym (x y : spec_float) :
  SFcompare y x = option_map CompOpp (SFcompare x y).
Proof.
  destruct x as [sx|sx| |sx mx ex], y as [sy|sy| |sy my ey];
    try destruct sx; try destruct sy; cbn; try reflexivity.
  all: fold (Pos.compare my mx); fold (Pos.compare mx my).
  all: rewrite (Z.compare_antisym ex ey), (Pos.compare_antisym mx my).
  all: destruct (ex ?= ey)%Z; cbn; try reflexivity.
  all: destruct (mx ?= my)%positive; reflexivity.
Qed.

Lemma float_leb_ltb (a b : float) :
  PrimFloat.leb a b = true -> PrimFloat.ltb b a = false.
Proof.
  rewrite leb_spec, ltb_spec. unfold SFleb, SFltb.
  rewrite (SFcompare_antisym (Prim2SF a) (Prim2SF b)).
  destruct (SFcompare (Prim2SF a) (Prim2SF b)) as [[]|]; cbn; congruence.
Qed.

Lemma float_ltb_leb (a b : float) :
  PrimFloat.ltb a b = true -> PrimFloat.leb b a = false.
Proof.
  rewrite leb_spec, ltb_spec. unfold SFleb, SFltb.
  rewrite (SFcompare_antisym (Prim2SF a) (Prim2SF b)).
  destruct (SFcompare (Prim2SF a) (Prim2SF b)) as [[]|]; cbn; congruence.
Qed.

(** What is above a balance that is not negative is positive. *)
Lemma float_above_not_negative (a b : float) :
  PrimFloat.ltb b 0 = false -> PrimFloat.ltb b a = true ->
  PrimFloat.leb a 0 = false.
Proof.
  rewrite leb_spec, !ltb_spec. change (Prim2SF 0) with (S754_zero false).
  unfold SFleb, SFltb.
  destruct (Prim2SF a) as [sa|sa| |sa ma ea], (Prim2SF b) as [sb|sb| |sb mb eb];
    try destruct sa; try destruct sb; cbn; congruence.
Qed.

(** ** The sign of sums and differences

    A sum of two floats that are not negative is not negative, and so is
    the difference [b - a] when [b < a] is false: the rounding of
    binary64 keeps the sign of the exact result. *)

Section FloatSign.
Local Open Scope Z_scope.

Lemma SFltb_zero_not_negative (x : spec_float) :
  SFltb x (S754_zero false) = false <-> Float.not_negative x.
Proof.
  destruct x as [s|s| |s m e]; try destruct s; cbn; intuition congruence.
Qed.

Lemma binary_round_aux_not_negative (mx ex : Z) (lx : location) :
  Float.not_negative (binary_round_aux prec emax false mx ex lx).
Proof.
  unfold binary_round_aux.
  destruct (shr_fexp prec emax mx ex lx) as [mrs' e'].
  destruct (shr_fexp prec emax _ e' loc_Exact) as [mrs'' e''].
  destruct (shr_m mrs''); [|destruct (Z.leb _ _)|]; cbn; auto.
Qed.

Lemma binary_normalize_not_negative (m e : Z) :
  0 <= m -> Float.not_negative (binary_normalize prec emax m e false).
Proof.
  intros Hm. destruct m as [|p|p]; cbn; [auto| |lia].
  unfold binary_round. destruct (shl_align _ _ _) as [mz ez].
  apply binary_round_aux_not_negative.
Qed.

Lemma digits2_pos_size (m : positive) : digits2_pos m = Pos.size m.
Proof. induction m; cbn; congruence. Qed.

Lemma canonical_digits (m : positive) (e : Z) :
  canonical_mantissa prec emax m e = true ->
  Z.pos (Pos.size m) <= 53 /\ (-1074 <= e) /\ (-1074 < e -> Z.pos (Pos.size m) = 53).
Proof.
  unfold canonical_mantissa, fexp, emin, prec, emax. rewrite digits2_pos_size.
  intros H. apply Z.eqb_eq in H. lia.
Qed.

Lemma size_bounds (m : positive) :
  2 ^ Z.pos (Pos.size m) <= 2 * Z.pos m /\ Z.pos m < 2 ^ Z.pos (Pos.size m).
Proof.
  split.
  - pose proof (Pos.size_le m) as H. 
    change (2 * Z.pos m) with (Z.pos m~0). rewrite <- Pos2Z.inj_pow. lia.
  - pose proof (Pos.size_gt m) as H. rewrite <- Pos2Z.inj_pow. lia.
Qed.

Lemma shl_align_value (m : positive) (e e' : Z) :
  e' <= e -> Z.pos (fst (shl_align m e e')) = Z.pos m * 2 ^ (e - e').
Proof.
  intros H. unfold shl_align. destruct (e' - e) as [|d|d] eqn:Hd; cbn [fst].
  - replace (e - e') with 0 by lia. lia.
  - lia.
  - replace (e - e') with (Z.pos d) by lia.
    change (Pos.iter xO m d) with (shift_pos d m).
    rewrite shift_pos_correct. change (2 ^ Z.pos d) with (Z.pow_pos 2 d).
    apply Z.mul_comm.
Qed.

Lemma aligned_difference (mb ma : positive) (eb ea : Z) :
  bounded prec emax mb eb = true ->
  bounded prec emax ma ea = true ->
  SFltb (S754_finite false mb eb) (S754_finite false ma ea) = false ->
  0 <= Z.pos (fst (shl_align mb eb (Z.min eb ea)))
       - Z.pos (fst (shl_align ma ea (Z.min eb ea))).
Proof.
  unfold bounded. intros Hb Ha Hlt.
  apply andb_prop in Hb as [Hb _]. apply andb_prop in Ha as [Ha _].
  apply canonical_digits in Hb as (Hb1 & Hb2 & Hb3).
  apply canonical_digits in Ha as (Ha1 & Ha2 & Ha3).
  rewrite !shl_align_value by lia.
  unfold SFltb, SFcompare in Hlt.
  destruct (Z.compare_spec eb ea) as [He|He|He]; [| discriminate |].
  - subst ea. rewrite Z.min_id, Z.sub_diag. cbn [Z.pow].
    fold (Pos.compare mb ma) in Hlt.
    destruct (Pos.compare_spec mb ma); [lia | discriminate | lia].
  - rewrite Z.min_r by lia. rewrite Z.sub_diag. cbn [Z.pow].
    specialize (Hb3 ltac:(lia)).
    pose proof (size_bounds mb) as [Hmb _]. rewrite Hb3 in Hmb.
    pose proof (size_bounds ma) as [_ Hma].
    assert (2 ^ Z.pos (Pos.size ma) <= 2 ^ 53) as H53
      by (apply Z.pow_le_mono_r; lia).
    assert (2 ^ 1 <= 2 ^ (eb - ea)) as Hd by (apply Z.pow_le_mono_r; lia).
    change (2 ^ 1) with 2 in Hd. nia.
Qed.


Lemma add_not_negative (b a : float) :
  PrimFloat.ltb b 0 = false -> PrimFloat.leb a 0 = false ->
  PrimFloat.ltb (b + a) 0 = false.
Proof.
  rewrite !ltb_spec, leb_spec, add_spec.
  change (Prim2SF 0) with (S754_zero false).
  rewrite !SFltb_zero_not_negative. unfold SF64add.
  destruct (Prim2SF b) as [sb|sb| |sb mb eb], (Prim2SF a) as [sa|sa| |sa ma ea];
    try destruct sb; try destruct sa; try (cbn; easy).
  intros _ _. unfold SFadd, cond_Zopp. cbv zeta.
  apply binary_normalize_not_negative. lia.
Qed.

Lemma sub_not_negative (b a : float) :
  PrimFloat.ltb b 0 = false -> PrimFloat.leb a 0 = false ->
  PrimFloat.ltb b a = false ->
  PrimFloat.ltb (b - a) 0 = false.
Proof.
  rewrite !ltb_spec, leb_spec, sub_spec.
  change (Prim2SF 0) with (S754_zero false).
  rewrite !SFltb_zero_not_negative. unfold SF64sub.
  pose proof (Prim2SF_valid b) as Hvb. pose proof (Prim2SF_valid a) as Hva.
  destruct (Prim2SF b) as [sb|sb| |sb mb eb], (Prim2SF a) as [sa|sa| |sa ma ea];
    try destruct sb; try destruct sa; try (cbn; easy).
  intros _ _ Hlt. unfold SFsub, cond_Zopp. cbv zeta.
  apply binary_normalize_not_negative.
  apply aligned_difference; assumption.
Qed.

End FloatSign.

(** ** The three ways a call returns *)

(** A call has returned: its value, its account and its heap are read off
    the equation. *)
Ltac returned := intros [= <- <- <-].

Lemma withdraw_not_positive (self : Account) (amount : float) (h : heap) :
  PrimFloat.leb amount 0 = true ->
  withdraw self amount h
  = ((false, Str.lit "Withdrawal amount must be positive."), self, h).
Proof. intros H. unfold withdraw. rewrite H. reflexivity. Qed.

Lemma deposit_not_positive (self : Account) (amount : float) (h : heap) :
  PrimFloat.leb amount 0 = true ->
  deposit self amount h
  = ((false, Str.lit "Deposit amount must be positive."), self, h).
Proof. intros H. unfold deposit. rewrite H. reflexivity. Qed.

Lemma withdraw_insufficient (self : Account) (amount : float) (h : heap) :
  PrimFloat.leb amount 0 = false ->
  PrimFloat.ltb (balance self) amount = true ->
  withdraw self amount h = ((false, Str.lit "Insufficient funds."), self, h).
Proof. intros H1 H2. unfold withdraw. rewrite H1, H2. reflexivity. Qed.

Lemma withdraw_passes (self : Account) (amount : float) (h : heap) :
  PrimFloat.leb amount 0 = false ->
  PrimFloat.ltb (balance self) amount = false ->
  withdraw self amount h
  = ((true,
      Str.lit "Successfully withdrew $" ++ Float.format_2f amount
        ++ Str.lit ". New balance: $"
        ++ Float.format_2f (PrimFloat.sub (balance self) amount)),
     set_balance self (PrimFloat.sub (balance self) amount),
     list_append (transaction_history self)
       (Str.lit "Withdrew $" ++ Float.format_2f amount) h).
Proof. intros H1 H2. unfold withdraw. rewrite H1, H2. reflexivity. Qed.

Lemma deposit_passes (self : Account) (amount : float) (h : heap) :
  PrimFloat.leb amount 0 = false ->
  deposit self amount h
  = ((true,
      Str.lit "Successfully deposited $" ++ Float.format_2f amount
        ++ Str.lit ". New balance: $"
        ++ Float.format_2f (PrimFloat.add (balance self) amount)),
     set_balance self (PrimFloat.add (balance self) amount),
     list_append (transaction_history self)
       (Str.lit "Deposited $" ++ Float.format_2f amount) h).
Proof. intros H. unfold deposit. rewrite H. reflexivity. Qed.

Lemma list_append_lookup (l : loc) (x : Str.t) (h : heap) (xs : list Str.t) :
  h !! l = Some xs -> list_append l x h !! l = Some (xs ++ [x]).
Proof. intros H. unfold list_append. rewrite lookup_alter_eq, H. reflexivity. Qed.

(** A call that fails returns before the first assignment. *)
Lemma failed_invoke_unchanged (c : call) (self self' : Account) (h h' : heap)
    (v : value) :
  invoke c self h = (v, self', h') -> failed v = true -> self' = self /\ h' = h.
Proof.
  destruct c as [|amount|amount|old_pin new_pin|]; cbn.
  - returned. discriminate.
  - unfold withdraw.
    destruct (PrimFloat.leb amount 0); [|destruct (PrimFloat.ltb _ amount)];
      returned; cbn; intros; (discriminate || auto).
  - unfold deposit. destruct (PrimFloat.leb amount 0);
      returned; cbn; intros; (discriminate || auto).
  - unfold change_pin. destruct (negb _); [|destruct (orb _ _)];
      returned; cbn; intros; (discriminate || auto).
  - returned. discriminate.
Qed.

(** ** Failed calls *)

(** C1. For every [amount <= 0], [withdraw] and [deposit] both fail with
    InvalidAmount and leave the account (balance, PIN) and the heap (the
    history) as they were. For every [amount > balance], on an account
    whose balance is not negative (the balance of the data model, and
    every balance that the calls produce from one), [withdraw] fails with
    InsufficientFunds and leaves them as they were. Whatever call fails,
    of whatever method, the account and the heap are those of before the
    call, and [check_balance] returns what it returned before. *)
Theorem failed_call_changes_nothing (self : Account) (h : heap) (amount : float) :
  (PrimFloat.leb amount 0 = true ->
     rejected InvalidAmount self h (withdraw self amount h)
     /\ rejected InvalidAmount self h (deposit self amount h))
  /\ (PrimFloat.ltb (balance self) 0 = false ->
      PrimFloat.ltb (balance self) amount = true ->
      rejected InsufficientFunds self h (withdraw self amount h))
  /\ (forall (c : call) (v : value) (self' : Account) (h' : heap),
      invoke c self h = (v, self', h') -> failed v = true ->
      self' = self /\ h' = h
      /\ check_balance self' h' = check_balance self h).
Proof.
  split; [|split].
  - intros H. split; eexists; split.
    + apply withdraw_not_positive, H.
    + split; [reflexivity | left; reflexivity].
    + apply deposit_not_positive, H.
    + split; [reflexivity | right; left; reflexivity].
  - intros Hb Ha. eexists; split.
    + apply withdraw_insufficient; [|exact Ha].
      exact (float_above_not_negative _ _ Hb Ha).
    + split; [reflexivity | left; reflexivity].
  - intros c v self' h' Hc Hv.
    destruct (failed_invoke_unchanged _ _ _ _ _ _ Hc Hv) as [-> ->]. auto.
Qed.

Lemma failed_call_changes_nothing_witness :
  (rejected InvalidAmount atm_account atm_heap (withdraw atm_account (-5) atm_heap)
   /\ rejected InvalidAmount atm_account atm_heap (deposit atm_account 0 atm_heap))
  /\ rejected InsufficientFunds atm_account atm_heap
       (withdraw atm_account 10000 atm_heap)
  /\ (let '(_, self', h') := invoke (Withdraw 10000) atm_account atm_heap in
      check_balance self' h')
     = check_balance atm_account atm_heap.
Proof.
  split; [|split].
  - split.
    + apply (failed_call_changes_nothing atm_account atm_heap (-5)). reflexivity.
    + apply (failed_call_changes_nothing atm_account atm_heap 0). reflexivity.
  - apply (failed_call_changes_nothing atm_account atm_heap 10000); reflexivity.
  - destruct (failed_call_changes_nothing atm_account atm_heap 10000)
      as (_ & _ & H).
    apply (H (Withdraw 10000) (VStatus (false, Str.lit "Insufficient funds."))
             atm_account atm_heap); reflexivity.
Defined.

(** ** Successful withdrawals *)

(** C6, as the source has it. For every amount with [0 < amount <= balance]
    [withdraw] succeeds: the new balance is the binary64 difference
    [balance - amount], rounded to nearest; one record, ["Withdrew $"] and
    the amount to two decimals, is appended to the history; the PIN and
    every other list are untouched; what is returned is [True] with a
    message that gives the new balance to two decimals. *)
Theorem withdraw_succeeds (self : Account) (amount : float) (h : heap)
    (records : list Str.t) :
  PrimFloat.ltb 0 amount = true ->
  PrimFloat.leb amount (balance self) = true ->
  h !! transaction_history self = Some records ->
  exists (self' : Account) (h' : heap),
    withdraw self amount h
    = ((true,
        Str.lit "Successfully withdrew $" ++ Float.format_2f amount
          ++ Str.lit ". New balance: $" ++ Float.format_2f (balance self')),
       self', h')
    /\ balance self' = PrimFloat.sub (balance self) amount
    /\ pin self' = pin self
    /\ transaction_history self' = transaction_history self
    /\ h' !! transaction_history self
       = Some (records ++ [Str.lit "Withdrew $" ++ Float.format_2f amount])
    /\ (forall l : loc, l <> transaction_history self -> h' !! l = h !! l).
Proof.
  intros Hpos Hle Hrec.
  rewrite (withdraw_passes self amount h
             (float_ltb_leb _ _ Hpos) (float_leb_ltb _ _ Hle)).
  exists (set_balance self (PrimFloat.sub (balance self) amount)),
    (list_append (transaction_history self)
       (Str.lit "Withdrew $" ++ Float.format_2f amount) h).
  split; [reflexivity|]. cbn.
  repeat split.
  - apply list_append_lookup, Hrec.
  - intros l Hl. unfold list_append. apply lookup_alter_ne. congruence.
Qed.

Lemma withdraw_succeeds_witness :
  exists (self' : Account) (h' : heap),
    withdraw atm_account 200 atm_heap
    = ((true, Str.lit "Successfully withdrew $200.00. New balance: $800.00"),
       self', h')
    /\ balance self' = 800%float
    /\ h' !! 1%positive = Some [Str.lit "Withdrew $200.00"].
Proof.
  destruct (withdraw_succeeds atm_account 200 atm_heap [])
    as (self' & h' & Hw & Hb & _ & _ & Hh & _); try reflexivity.
  exists self', h'. rewrite Hw, Hb. split; [|split].
  - reflexivity.
  - reflexivity.
  - exact Hh.
Defined.

(** C6, as it is stated, fails where the subtraction rounds: from a
    balance of 1e16 a withdrawal of 1 succeeds and leaves the balance at
    1e16, since 9999999999999999 is no binary64 number. *)
Lemma withdraw_is_not_exact :
  PrimFloat.ltb 0 1 = true
  /\ PrimFloat.leb 1 (balance (set_balance atm_account 1e16)) = true
  /\ (let '(r, self', _) := withdraw (set_balance atm_account 1e16) 1 atm_heap in
      fst r = true
      /\ balance self' = 1e16%float
      /\ ~ exactly_decreased 1e16 (balance self') 1).
Proof.
  split; [reflexivity|]. split; [reflexivity|].
  vm_compute. split; [reflexivity|]. split; [reflexivity|]. discriminate.
Qed.

(** ** One call, then many *)

(** What one call does, by whether it succeeded. *)
Lemma invoke_effect (c : call) (self self' : Account) (h h' : heap)
    (v : value) (records : list Str.t) :
  h !! transaction_history self = Some records ->
  invoke c self h = (v, self', h') ->
  if succeeded (c, v) then
    exists r : Str.t,
      record_of c = [r]
      /\ transaction_history self' = transaction_history self
      /\ balance self' = settle (balance self) c
      /\ h' !! transaction_history self = Some (records ++ [r])
  else self' = self /\ h' = h.
Proof.
  intros Hrec.
  destruct c as [|amount|amount|old_pin new_pin|]; cbn.
  - returned. cbn. auto.
  - unfold withdraw.
    destruct (PrimFloat.leb amount 0); [|destruct (PrimFloat.ltb _ amount)];
      returned; cbn; auto.
    eexists. repeat split. apply list_append_lookup, Hrec.
  - unfold deposit. destruct (PrimFloat.leb amount 0);
      returned; cbn; auto.
    eexists. repeat split. apply list_append_lookup, Hrec.
  - unfold change_pin. destruct (negb _); [|destruct (orb _ _)];
      returned; cbn; auto.
    eexists. repeat split. apply list_append_lookup, Hrec.
  - returned. cbn. auto.
Qed.

(** A run leaves the account with the same list, holding the old records
    and then one record for each successful call, in the order of the
    calls; its balance is the old one settled by each successful call in
    turn. *)
Lemma run_effect (cs : list call) :
  forall (self self' : Account) (h h' : heap) (trace : list (call * value))
    (records : list Str.t),
  h !! transaction_history self = Some records ->
  run cs self h = (trace, self', h') ->
  transaction_history self' = transaction_history self
  /\ balance self' = fold_left settle (successes trace) (balance self)
  /\ h' !! transaction_history self
     = Some (records ++ flat_map record_of (successes trace))
  /\ length (flat_map record_of (successes trace)) = length (successes trace)
  /\ List.map fst trace = cs.
Proof.
  induction cs as [|c cs IH]; intros self self' h h' trace records Hrec; cbn.
  - returned. cbn. rewrite app_nil_r. auto.
  - destruct (invoke c self h) as [[v self1] h1] eqn:Hc.
    destruct (run cs self1 h1) as [[vs self2] h2] eqn:Hr.
    returned.
    pose proof (invoke_effect c self self1 h h1 v records Hrec Hc) as He.
    unfold successes in *. cbn [List.filter].
    destruct (succeeded (c, v)).
    + destruct He as (r & Hr1 & Hth & Hb & Hh).
      rewrite <- Hth in Hh.
      destruct (IH _ _ _ _ _ _ Hh Hr) as (Hth2 & Hb2 & Hh2 & Hlen & Hcs).
      cbn. rewrite Hr1. cbn.
      repeat split; try congruence.
      * rewrite <- Hth, <- Hth2 in *. rewrite Hh2, <- app_assoc. reflexivity.
    + destruct He as [-> ->].
      destruct (IH _ _ _ _ _ _ Hrec Hr) as (Hth2 & Hb2 & Hh2 & Hlen & Hcs).
      repeat split; try congruence. cbn. congruence.
Qed.

(** ** The history grows at its end *)

(** C4. A call that succeeds (a [withdraw], a [deposit] or a [change_pin]
    that returned [True]) appends exactly one record; any other call, so
    every failed one, leaves the list as it was. In every case the new
    history is the old one with at most one record after it: no record is
    moved, changed or removed. *)
Theorem history_is_append_only (c : call) (self self' : Account)
    (h h' : heap) (v : value) (records : list Str.t) :
  h !! transaction_history self = Some records ->
  invoke c self h = (v, self', h') ->
  transaction_history self' = transaction_history self
  /\ (succeeded (c, v) = true ->
      exists r : Str.t, h' !! transaction_history self' = Some (records ++ [r]))
  /\ (succeeded (c, v) = false ->
      h' !! transaction_history self' = Some records)
  /\ (exists suffix : list Str.t,
        h' !! transaction_history self' = Some (records ++ suffix)
        /\ length suffix <= 1).
Proof.
  intros Hrec Hc.
  pose proof (invoke_effect c self self' h h' v records Hrec Hc) as He.
  destruct (succeeded (c, v)).
  - destruct He as (r & _ & Hth & _ & Hh). rewrite Hth.
    repeat split; try discriminate.
    + intros _. exists r. exact Hh.
    + exists [r]. split; [exact Hh | cbn; lia].
  - destruct He as [-> ->].
    repeat split; try discriminate; auto.
    exists []. rewrite app_nil_r. split; [exact Hrec | cbn; lia].
Qed.

Lemma history_is_append_only_witness :
  let '(v, self', h') := invoke (Deposit 50) atm_account atm_heap in
  succeeded (Deposit 50, v) = true
  /\ exists r : Str.t, h' !! transaction_history self' = Some ([] ++ [r]).
Proof.
  destruct (invoke (Deposit 50) atm_account atm_heap) as [[v self'] h'] eqn:Hc.
  destruct (history_is_append_only (Deposit 50) atm_account self' atm_heap h'
              v [] eq_refl Hc) as (_ & Hs & _).
  assert (succeeded (Deposit 50, v) = true) as Hv.
  { vm_compute in Hc. injection Hc as <- _ _. reflexivity. }
  split; [exact Hv | exact (Hs Hv)].
Defined.

(** Over a run the old records stay a prefix of the history. *)
Lemma run_keeps_records (cs : list call) (self self' : Account) (h h' : heap)
    (trace : list (call * value)) (records : list Str.t) :
  h !! transaction_history self = Some records ->
  run cs self h = (trace, self', h') ->
  exists added : list Str.t,
    h' !! transaction_history self' = Some (records ++ added).
Proof.
  intros Hrec Hr.
  destruct (run_effect cs _ _ _ _ _ _ Hrec Hr) as (Hth & _ & Hh & _).
  rewrite Hth. eauto.
Qed.

(** ** The balance after a run *)

(** When no step rounds, the balance follows the exact sums. *)
Lemma exact_steps_sum (cs : list call) :
  forall (b : float) (q : Q),
  Float.exact b = Some q ->
  exact_steps b cs ->
  exists qf d w : Q,
    Float.exact (fold_left settle cs b) = Some qf
    /\ exact_sum (flat_map deposited cs) = Some d
    /\ exact_sum (flat_map withdrawn cs) = Some w
    /\ (qf == q + d - w)%Q.
Proof.
  induction cs as [|c cs IH]; intros b q Hb; cbn.
  - intros _. exists q, 0%Q, 0%Q. repeat split; auto. ring.
  - intros [Hc Hcs].
    destruct c as [|amount|amount|old_pin new_pin|]; cbn in *;
      try (apply (IH b q Hb Hcs)).
    + unfold exactly_decreased in Hc. rewrite Hb in Hc.
      destruct (Float.exact (PrimFloat.sub b amount)) as [qr|] eqn:Hr;
        [|contradiction].
      destruct (Float.exact amount) as [qa|] eqn:Ha; [|contradiction].
      destruct (IH _ qr Hr Hcs) as (qf & d & w & Hf & Hd & Hw & Hq).
      exists qf, d, (qa + w)%Q. rewrite Hf, Hd, Hw.
      repeat split. rewrite Hq, Hc. ring.
    + rewrite Hb in Hc.
      destruct (Float.exact amount) as [qa|] eqn:Ha; [|contradiction].
      destruct (Float.exact (PrimFloat.add b amount)) as [qr|] eqn:Hr;
        [|contradiction].
      destruct (IH _ qr Hr Hcs) as (qf & d & w & Hf & Hd & Hw & Hq).
      exists qf, (qa + d)%Q, w. rewrite Hf, Hd, Hw.
      repeat split. rewrite Hq, Hc. ring.
Qed.

(** C5, as the source has it. After any sequence of calls the final
    balance is the initial one with the amount of each successful deposit
    added and of each successful withdrawal subtracted, in the order of
    the calls and in binary64 arithmetic; it is the initial balance plus
    the sum of the deposits minus the sum of the withdrawals whenever no
    addition or subtraction on the way rounds. The history has grown by
    one record for each successful call. *)
Theorem balance_after_run (cs : list call) (self self' : Account)
    (h h' : heap) (trace : list (call * value)) (records : list Str.t) :
  h !! transaction_history self = Some records ->
  run cs self h = (trace, self', h') ->
  balance self' = fold_left settle (successes trace) (balance self)
  /\ (Float.exact (balance self) <> None ->
      exact_steps (balance self) (successes trace) ->
      balance_equation (balance self) (balance self') trace)
  /\ (exists added : list Str.t,
        h' !! transaction_history self' = Some (records ++ added)
        /\ length added = length (successes trace)).
Proof.
  intros Hrec Hr.
  destruct (run_effect cs _ _ _ _ _ _ Hrec Hr) as (Hth & Hb & Hh & Hlen & _).
  split; [exact Hb|]. split.
  - intros Hfin Hsteps.
    destruct (Float.exact (balance self)) as [q|] eqn:Hq; [|congruence].
    destruct (exact_steps_sum _ _ _ Hq Hsteps) as (qf & d & w & Hf & Hd & Hw & He).
    unfold balance_equation. rewrite Hq, Hb, Hf, Hd, Hw. exact He.
  - rewrite Hth. eauto.
Qed.

Lemma balance_after_run_witness :
  exists (trace : list (call * value)) (self' : Account) (h' : heap),
    run [Withdraw 200; Deposit 50; Withdraw 10000] atm_account atm_heap
    = (trace, self', h')
    /\ balance self' = 850%float
    /\ balance_equation 1000 (balance self') trace
    /\ exists added : list Str.t,
         h' !! transaction_history self' = Some ([] ++ added)
         /\ length added = 2.
Proof.
  destruct (run [Withdraw 200; Deposit 50; Withdraw 10000] atm_account atm_heap)
    as [[trace self'] h'] eqn:Hr.
  destruct (balance_after_run _ atm_account self' atm_heap h' trace []
              eq_refl Hr) as (Hb & Heq & Hh).
  vm_compute in Hr. injection Hr as <- <- <-.
  eexists _, _, _. split; [reflexivity|]. split; [reflexivity|]. split.
  - apply Heq; [discriminate|]. vm_compute. repeat split; reflexivity.
  - exact Hh.
Defined.

(** C5, as it is stated, fails where an addition rounds: two deposits of
    1 into a balance of 1e16 both succeed and leave the balance at 1e16,
    not at 1e16 + 2, whether the sum is the exact one or Python's. *)
Lemma balance_equation_fails :
  let '(trace, self', _) :=
    run [Deposit 1; Deposit 1] (set_balance atm_account 1e16) atm_heap in
  successes trace = [Deposit 1; Deposit 1]
  /\ balance self' = 1e16%float
  /\ ~ balance_equation 1e16 (balance self') trace
  /\ PrimFloat.eqb (balance self')
       (1e16 + float_sum (flat_map deposited (successes trace))
        - float_sum (flat_map withdrawn (successes trace))) = false.
Proof.
  vm_compute. repeat split; discriminate.
Qed.

(** ** The balance invariant *)

(** What the guards do keep: a balance that is not negative, that is
    zero, positive or [nan], is not negative after any call, whatever its
    arguments. *)
Lemma balance_never_negative (c : call) (self self' : Account) (h h' : heap)
    (v : value) :
  PrimFloat.ltb (balance self) 0 = false ->
  invoke c self h = (v, self', h') ->
  PrimFloat.ltb (balance self') 0 = false.
Proof.
  intros Hb.
  destruct c as [|amount|amount|old_pin new_pin|]; cbn.
  - returned. exact Hb.
  - unfold withdraw.
    destruct (PrimFloat.leb amount 0) eqn:Ha;
      [|destruct (PrimFloat.ltb _ amount) eqn:Hlt];
      returned; cbn; auto using sub_not_negative.
  - unfold deposit. destruct (PrimFloat.leb amount 0) eqn:Ha;
      returned; cbn; auto using add_not_negative.
  - unfold change_pin. destruct (negb _); [|destruct (orb _ _)];
      returned; exact Hb.
  - returned. exact Hb.
Qed.

(** X3. No sequence of calls makes the balance negative, whatever the
    arguments are, [nan] and the infinities too: a balance of which
    [balance < 0] is false before the calls is one after them. *)
Lemma run_never_negative (cs : list call) :
  forall (self self' : Account) (h h' : heap) (trace : list (call * value)),
  PrimFloat.ltb (balance self) 0 = false ->
  run cs self h = (trace, self', h') ->
  PrimFloat.ltb (balance self') 0 = false.
Proof.
  induction cs as [|c cs IH]; intros self self' h h' trace Hb; cbn.
  - returned. exact Hb.
  - destruct (invoke c self h) as [[v self1] h1] eqn:Hi.
    destruct (run cs self1 h1) as [[vs self2] h2] eqn:Hr.
    returned.
    apply (IH self1 self2 h1 h2 vs); [|exact Hr].
    apply (balance_never_negative c self self1 h h1 v Hb Hi).
Qed.

(** C2 at the inputs where it fails. The guard [amount <= 0] is false for
    [nan], so [deposit(nan)] succeeds and the balance of 1000 becomes
    [nan], which is not [>= 0]; after it every withdrawal passes the guard
    [amount > balance]. With no [nan] among the arguments: [deposit(inf)]
    leaves the balance at [inf], which is [>= 0], and from there
    [withdraw(inf)] succeeds and leaves [inf - inf], that is [nan]. The
    balance is never negative ([balance_never_negative]); it is [nan]
    that breaks [balance >= 0]. *)
Theorem balance_invariant_broken :
  PrimFloat.leb 0 (balance atm_account) = true
  /\ (let '(r, self1, h1) := deposit atm_account nan atm_heap in
      r = (true, Str.lit "Successfully deposited $nan. New balance: $nan")
      /\ PrimFloat.leb 0 (balance self1) = false
      /\ fst (fst (withdraw self1 1000000 h1)) 
         = (true, Str.lit "Successfully withdrew $1000000.00. New balance: $nan"))
  /\ (let '(r, self1, h1) := deposit atm_account infinity atm_heap in
      fst r = true
      /\ PrimFloat.leb 0 (balance self1) = true
      /\ let '(r2, self2, _) := withdraw self1 infinity h1 in
         fst r2 = true /\ PrimFloat.leb 0 (balance self2) = false).
Proof. vm_compute. repeat split. Qed.

(** ** The PIN *)

Lemma Str_eqb_eq (a b : Str.t) : Str.eqb a b = true <-> a = b.
Proof.
  revert b. induction a as [|x a IH]; intros [|y b]; cbn; try easy.
  rewrite andb_true_iff, N.eqb_eq, IH. split.
  - intros [-> ->]. reflexivity.
  - intros [= -> ->]. auto.
Qed.

Lemma Str_eqb_neq (a b : Str.t) : Str.eqb a b = false <-> a <> b.
Proof.
  rewrite <- Str_eqb_eq. destruct (Str.eqb a b); split; congruence.
Qed.

Lemma change_pin_wrong_pin (self : Account) (old_pin new_pin : Str.t) (h : heap) :
  old_pin <> pin self ->
  change_pin self old_pin new_pin h
  = ((false, Str.lit "Incorrect current PIN."), self, h).
Proof.
  intros H. apply Str_eqb_neq in H. unfold change_pin. rewrite H. reflexivity.
Qed.

Lemma change_pin_bad_format (self : Account) (new_pin : Str.t) (h : heap) :
  Str.isdigit new_pin = false \/ Str.len new_pin <> 4 ->
  change_pin self (pin self) new_pin h
  = ((false, Str.lit "New PIN must be a 4-digit number."), self, h).
Proof.
  intros H. unfold change_pin.
  rewrite (proj2 (Str_eqb_eq _ _) eq_refl). cbn.
  destruct H as [-> | H]; [reflexivity|].
  apply Nat.eqb_neq in H. rewrite H, orb_true_r. reflexivity.
Qed.

Lemma change_pin_passes (self : Account) (new_pin : Str.t) (h : heap) :
  Str.isdigit new_pin = true -> Str.len new_pin = 4 ->
  change_pin self (pin self) new_pin h
  = ((true, Str.lit "PIN successfully changed."),
     set_pin self new_pin,
     list_append (transaction_history self) (Str.lit "PIN changed") h).
Proof.
  intros Hd Hl. unfold change_pin.
  rewrite (proj2 (Str_eqb_eq _ _) eq_refl), Hd, Hl. reflexivity.
Qed.

(** C10. When the old PIN does not match, [change_pin] reports the
    authentication failure whatever the new PIN is, so also when the new
    PIN is not four digits; the format failure is reported only on a call
    whose old PIN matches. *)
Theorem authentication_is_checked_first (self : Account)
    (old_pin new_pin : Str.t) (h : heap) :
  (old_pin <> pin self ->
   rejected AuthenticationFailed self h (change_pin self old_pin new_pin h))
  /\ (forall r : bool * Str.t,
      fst (fst (change_pin self old_pin new_pin h)) = r ->
      fails_with InvalidPinFormat r -> old_pin = pin self).
Proof.
  split.
  - intros H. rewrite (change_pin_wrong_pin _ _ _ _ H).
    eexists. split; [reflexivity|]. split; [reflexivity | left; reflexivity].
  - intros r Hr [_ Hin]. destruct (Str.eqb old_pin (pin self)) eqn:He.
    + apply Str_eqb_eq, He.
    + apply Str_eqb_neq in He.
      rewrite (change_pin_wrong_pin _ _ _ _ He) in Hr. subst r.
      destruct Hin as [Hin|[]]. vm_compute in Hin. discriminate.
Qed.

Lemma authentication_is_checked_first_witness :
  rejected AuthenticationFailed atm_account atm_heap
    (change_pin atm_account (Str.lit "0000") (Str.lit "56") atm_heap).
Proof.
  apply (authentication_is_checked_first atm_account (Str.lit "0000")
           (Str.lit "56") atm_heap).
  vm_compute. discriminate.
Defined.

(** C7 at the input where it fails. Four times the superscript two,
    U+00B2, is no decimal digit, but [str.isdigit] holds of it and its
    length is 4: with the right old PIN, [change_pin] succeeds and stores
    it, where the claim has the call fail with InvalidPinFormat. *)
Theorem change_pin_accepts_superscripts :
  Str.four_decimal_digits [178; 178; 178; 178]%N = false
  /\ Str.isdigit [178; 178; 178; 178]%N = true
  /\ (let '(r, self', h') :=
        change_pin atm_account (Str.lit "1234") [178; 178; 178; 178]%N atm_heap in
      r = (true, Str.lit "PIN successfully changed.")
      /\ pin self' = [178; 178; 178; 178]%N
      /\ h' !! transaction_history self' = Some [Str.lit "PIN changed"]).
Proof. vm_compute. repeat split. Qed.

(** The rest of C7 holds: a wrong old PIN is an authentication failure, a
    new PIN that [isdigit] refuses or that is not four characters long is
    a format failure, both leave the account as it was, and any other
    call stores the new PIN. *)
Lemma change_pin_cases (self : Account) (old_pin new_pin : Str.t) (h : heap) :
  (old_pin <> pin self ->
   rejected AuthenticationFailed self h (change_pin self old_pin new_pin h))
  /\ (old_pin = pin self ->
      Str.isdigit new_pin = false \/ Str.len new_pin <> 4 ->
      rejected InvalidPinFormat self h (change_pin self old_pin new_pin h))
  /\ (old_pin = pin self ->
      Str.isdigit new_pin = true -> Str.len new_pin = 4 ->
      exists (self' : Account) (h' : heap),
        change_pin self old_pin new_pin h
        = ((true, Str.lit "PIN successfully changed."), self', h')
        /\ pin self' = new_pin /\ balance self' = balance self).
Proof.
  split; [|split].
  - intros H. rewrite (change_pin_wrong_pin _ _ _ _ H).
    eexists. split; [reflexivity|]. split; [reflexivity | left; reflexivity].
  - intros -> H. rewrite (change_pin_bad_format _ _ _ H).
    eexists. split; [reflexivity|]. split; [reflexivity | left; reflexivity].
  - intros -> Hd Hl. rewrite (change_pin_passes _ _ _ Hd Hl).
    eexists _, _. split; [reflexivity|]. split; reflexivity.
Qed.

(** C8. The record of a successful [change_pin] is the same whatever the
    account, the old PIN and the new PIN: any two successful calls append
    the same record, ["PIN changed"], so no PIN reaches the history. *)
Theorem pin_change_record_is_constant
    (self1 self2 : Account) (old1 new1 old2 new2 : Str.t) (h1 h2 : heap)
    (records1 records2 : list Str.t) (out1 out2 : returns (bool * Str.t)) :
  h1 !! transaction_history self1 = Some records1 ->
  h2 !! transaction_history self2 = Some records2 ->
  change_pin self1 old1 new1 h1 = out1 ->
  change_pin self2 old2 new2 h2 = out2 ->
  fst (fst (fst out1)) = true ->
  fst (fst (fst out2)) = true ->
  exists r : Str.t,
    r = Str.lit "PIN changed"
    /\ snd out1 !! transaction_history self1 = Some (records1 ++ [r])
    /\ snd out2 !! transaction_history self2 = Some (records2 ++ [r]).
Proof.
  intros Hr1 Hr2 <- <-. unfold change_pin.
  destruct (negb (Str.eqb old1 _)); [discriminate|].
  destruct (orb _ _); [discriminate|].
  destruct (negb (Str.eqb old2 _)); [discriminate|].
  destruct (orb _ _); [discriminate|].
  intros _ _. exists (Str.lit "PIN changed"). cbn [snd].
  split; [reflexivity|]. split; apply list_append_lookup; assumption.
Qed.

Lemma pin_change_record_is_constant_witness :
  exists r : Str.t,
    r = Str.lit "PIN changed"
    /\ snd (change_pin atm_account (Str.lit "1234") (Str.lit "5678") atm_heap)
         !! 1%positive = Some ([] ++ [r])
    /\ snd (change_pin (set_pin atm_account (Str.lit "0042")) (Str.lit "0042")
              (Str.lit "9999") atm_heap)
         !! 1%positive = Some ([] ++ [r]).
Proof.
  apply (pin_change_record_is_constant
           atm_account (set_pin atm_account (Str.lit "0042"))
           (Str.lit "1234") (Str.lit "5678") (Str.lit "0042") (Str.lit "9999")
           atm_heap atm_heap [] [] _ _ eq_refl eq_refl eq_refl eq_refl);
    reflexivity.
Defined.

(** *** The format of the stored PIN *)

(** Among the ASCII characters [isdigit] holds of [0] to [9] only. *)
Lemma ranges_above (c : N) (rs : list (N * N)) :
  (c < 128)%N ->
  forallb (fun r => N.leb 128 (fst r)) rs = true ->
  existsb (Str.in_range c) rs = false.
Proof.
  intros Hc. induction rs as [|[lo hi] rs IH]; cbn; [reflexivity|].
  rewrite andb_true_iff. intros [Hlo Hrs]. rewrite (IH Hrs), orb_false_r.
  apply N.leb_le in Hlo. unfold Str.in_range. cbn.
  apply andb_false_iff. left. apply N.leb_gt. lia.
Qed.

Lemma ascii_isdigit (c : N) :
  Str.is_ascii c = true -> Str.char_isdigit c = Str.ascii_digit c.
Proof.
  unfold Str.is_ascii. intros Hc. apply N.ltb_lt in Hc.
  unfold Str.char_isdigit.
  change Str.digit_ranges with ((48, 57)%N :: tl Str.digit_ranges).
  cbn [existsb]. rewrite (ranges_above c _ Hc); [|vm_compute; reflexivity].
  apply orb_false_r.
Qed.

Lemma ascii_four_digits (s : Str.t) :
  forallb Str.is_ascii s = true ->
  Str.isdigit s = true -> Str.len s = 4 ->
  Str.four_decimal_digits s = true.
Proof.
  intros Ha Hd Hl. unfold Str.four_decimal_digits. rewrite Hl. cbn.
  assert (forallb Str.char_isdigit s = true) as Hall.
  { destruct s; [discriminate | exact Hd]. }
  clear Hd Hl. induction s as [|c s IH]; cbn [forallb] in *; [reflexivity|].
  apply andb_true_iff in Ha as [Hc Ha]. apply andb_true_iff in Hall as [Hd Hall].
  rewrite <- (ascii_isdigit c Hc), Hd. cbn [andb]. apply IH; assumption.
Qed.

(** A call leaves the PIN as it was or stores a new one that passed the
    test of [change_pin]. *)
Lemma invoke_pin (c : call) (self self' : Account) (h h' : heap) (v : value) :
  invoke c self h = (v, self', h') ->
  pin self' = pin self
  \/ exists old_pin new_pin : Str.t,
       c = ChangePin old_pin new_pin /\ pin self' = new_pin
       /\ Str.isdigit new_pin = true /\ Str.len new_pin = 4.
Proof.
  destruct c as [|amount|amount|old_pin new_pin|]; cbn.
  - returned. auto.
  - unfold withdraw.
    destruct (PrimFloat.leb amount 0); [|destruct (PrimFloat.ltb _ amount)];
      returned; auto.
  - unfold deposit. destruct (PrimFloat.leb amount 0);
      returned; auto.
  - unfold change_pin. destruct (negb _); [returned; auto|].
    destruct (Str.isdigit new_pin) eqn:Hd; cbn; [|returned; auto].
    destruct (Nat.eqb (Str.len new_pin) 4) eqn:Hl; cbn;
      returned; auto.
    right. exists old_pin, new_pin. apply Nat.eqb_eq in Hl. auto.
  - returned. auto.
Qed.

Lemma run_pin (cs : list call) :
  forall (self self' : Account) (h h' : heap) (trace : list (call * value)),
  Str.four_decimal_digits (pin self) = true ->
  forallb ascii_new_pin cs = true ->
  run cs self h = (trace, self', h') ->
  Str.four_decimal_digits (pin self') = true.
Proof.
  induction cs as [|c cs IH]; intros self self' h h' trace Hpin; cbn.
  - intros _ [= <- <- <-]. exact Hpin.
  - rewrite andb_true_iff. intros [Hc Hcs].
    destruct (invoke c self h) as [[v self1] h1] eqn:Hi.
    destruct (run cs self1 h1) as [[vs self2] h2] eqn:Hr.
    returned. apply (IH self1 self2 h1 h2 vs); [|exact Hcs|exact Hr].
    destruct (invoke_pin _ _ _ _ _ _ Hi) as [-> | (o & n & -> & -> & Hd & Hl)];
      [exact Hpin|].
    apply ascii_four_digits; assumption.
Qed.

(** C3, as the source has it. [Account(pin, balance)] stores the PIN it is
    given, whatever it is. When that PIN is four decimal digits, it is
    four decimal digits after any sequence of calls whose new PINs are
    ASCII strings: among those [change_pin] stores only four decimal
    digits. *)
Theorem pin_stays_four_digits (pin0 : Str.t) (balance0 : float) (h0 : heap)
    (cs : list call) :
  Str.four_decimal_digits pin0 = true ->
  forallb ascii_new_pin cs = true ->
  pin (fst (__init__ pin0 balance0 h0)) = pin0
  /\ Str.four_decimal_digits
       (pin (snd (fst (run cs (fst (__init__ pin0 balance0 h0))
                         (snd (__init__ pin0 balance0 h0)))))) = true.
Proof.
  intros Hpin Hcs. split; [reflexivity|].
  destruct (run cs _ _) as [[trace self'] h'] eqn:Hr.
  apply (run_pin cs (fst (__init__ pin0 balance0 h0)) self'
           (snd (__init__ pin0 balance0 h0)) h' trace);
    [exact Hpin | exact Hcs | exact Hr].
Qed.

Lemma pin_stays_four_digits_witness :
  Str.four_decimal_digits
    (pin (snd (fst (run [ChangePin (Str.lit "1234") (Str.lit "56");
                         ChangePin (Str.lit "1234") (Str.lit "5678");
                         Withdraw 200]
                      (fst (__init__ (Str.lit "1234") 1000 ∅))
                      (snd (__init__ (Str.lit "1234") 1000 ∅)))))) = true.
Proof.
  apply (pin_stays_four_digits (Str.lit "1234") 1000 ∅
           [ChangePin (Str.lit "1234") (Str.lit "56");
            ChangePin (Str.lit "1234") (Str.lit "5678");
            Withdraw 200]); reflexivity.
Defined.

(** C3, as it is stated, fails at the construction: [Account("abc")] is an
    account whose PIN is not four decimal digits. *)
Lemma constructor_takes_any_pin :
  pin (fst (__init__ (Str.lit "abc") 0 ∅)) = Str.lit "abc"
  /\ Str.four_decimal_digits (pin (fst (__init__ (Str.lit "abc") 0 ∅))) = false.
Proof. split; reflexivity. Qed.

(** ** The returned history *)

(** The constructor allocates the list of the account. *)
Lemma init_allocates (pin0 : Str.t) (balance0 : float) (h0 : heap) :
  h0 !! transaction_history (fst (__init__ pin0 balance0 h0)) = None
  /\ snd (__init__ pin0 balance0 h0)
       !! transaction_history (fst (__init__ pin0 balance0 h0)) = Some [].
Proof.
  cbn. split.
  - apply not_elem_of_dom, is_fresh.
  - apply lookup_insert_eq.
Qed.

(** C9, as the source has it. [get_transaction_history] changes nothing
    and returns the list of the account itself: read through what is
    returned, the records are those of before a run and then one for each
    successful call, in the order of the calls. What is returned is no
    copy: an [append] through it is an [append] to the history of the
    account. *)
Theorem get_transaction_history_is_alias (cs : list call)
    (self self' : Account) (h h' : heap) (trace : list (call * value))
    (records : list Str.t) :
  h !! transaction_history self = Some records ->
  run cs self h = (trace, self', h') ->
  exists l : loc,
    get_transaction_history self' h' = (l, self', h')
    /\ l = transaction_history self'
    /\ h' !! l = Some (records ++ flat_map record_of (successes trace))
    /\ forall x : Str.t,
         history self' (list_append l x h') = history self' h' ++ [x].
Proof.
  intros Hrec Hr.
  destruct (run_effect cs _ _ _ _ _ _ Hrec Hr) as (Hth & _ & Hh & _).
  exists (transaction_history self'). rewrite Hth.
  split; [unfold get_transaction_history; congruence|].
  split; [reflexivity|]. split; [exact Hh|].
  intros x. unfold history. rewrite Hth.
  rewrite (list_append_lookup _ _ _ _ Hh), Hh. reflexivity.
Qed.

Lemma get_transaction_history_is_alias_witness :
  exists l : loc,
    get_transaction_history (set_balance atm_account 850)
      (list_append 1%positive (Str.lit "Deposited $50.00")
         (list_append 1%positive (Str.lit "Withdrew $200.00") atm_heap))
    = (l, set_balance atm_account 850,
       list_append 1%positive (Str.lit "Deposited $50.00")
         (list_append 1%positive (Str.lit "Withdrew $200.00") atm_heap))
    /\ list_append 1%positive (Str.lit "Deposited $50.00")
         (list_append 1%positive (Str.lit "Withdrew $200.00") atm_heap) !! l
       = Some [Str.lit "Withdrew $200.00"; Str.lit "Deposited $50.00"].
Proof.
  destruct (get_transaction_history_is_alias
              [Withdraw 200; Deposit 50; Withdraw 10000]
              atm_account (set_balance atm_account 850) atm_heap
              (list_append 1%positive (Str.lit "Deposited $50.00")
                 (list_append 1%positive (Str.lit "Withdrew $200.00") atm_heap))
              _ [] eq_refl eq_refl) as (l & Hg & _ & Hl & _).
  exists l. split; [exact Hg | exact Hl].
Defined.

(** C9, as it is stated, fails: a caller that appends to the list it was
    returned has changed the history of the account. *)
Lemma returned_history_is_mutable :
  let '(l, self', h') := get_transaction_history atm_account atm_heap in
  history self' h' = []
  /\ history self' (list_append l (Str.lit "Deposited $1000000.00") h')
     = [Str.lit "Deposited $1000000.00"]
  /\ history self' (list_append l (Str.lit "Deposited $1000000.00") h')
     <> history self' h'.
Proof. vm_compute. repeat split. discriminate. Qed.

(** ** The scenario of the specification *)

Example scenario :
  run [Withdraw 200; Deposit 50; Withdraw 10000;
       ChangePin (Str.lit "1234") (Str.lit "56");
       ChangePin (Str.lit "1234") (Str.lit "5678");
       CheckBalance; GetTransactionHistory]
    atm_account atm_heap
  = ([(Withdraw 200,
       VStatus (true, Str.lit "Successfully withdrew $200.00. New balance: $800.00"));
      (Deposit 50,
       VStatus (true, Str.lit "Successfully deposited $50.00. New balance: $850.00"));
      (Withdraw 10000, VStatus (false, Str.lit "Insufficient funds."));
      (ChangePin (Str.lit "1234") (Str.lit "56"),
       VStatus (false, Str.lit "New PIN must be a 4-digit number."));
      (ChangePin (Str.lit "1234") (Str.lit "5678"),
       VStatus (true, Str.lit "PIN successfully changed."));
      (CheckBalance, VFloat 850);
      (GetTransactionHistory, VList 1%positive)],
     {| pin := Str.lit "5678"; balance := 850;
        transaction_history := 1%positive |},
     {[ 1%positive := [Str.lit "Withdrew $200.00"; Str.lit "Deposited $50.00";
                       Str.lit "PIN changed"] ]}).
Proof. vm_compute. reflexivity. Qed.

(** ** More on the calls of [Account] *)

(** *** When a call succeeds *)

Lemma is_nan_false (x : float) :
  PrimFloat.is_nan x = false -> Prim2SF x <> S754_nan.
Proof.
  unfold PrimFloat.is_nan. rewrite FloatAxioms.eqb_spec. intros H Hx. rewrite Hx in H.
  discriminate.
Qed.

(** Two floats of which none is [nan] compare. *)
Lemma SFcompare_some (x y : spec_float) :
  x <> S754_nan -> y <> S754_nan -> exists c, SFcompare x y = Some c.
Proof.
  destruct x as [sx|sx| |sx mx ex], y as [sy|sy| |sy my ey];
    cbn; intros Hx Hy; try congruence; eauto.
Qed.

Lemma float_not_leb (a b : float) :
  PrimFloat.is_nan a = false -> PrimFloat.is_nan b = false ->
  PrimFloat.leb a b = false -> PrimFloat.ltb b a = true.
Proof.
  intros Ha%is_nan_false Hb%is_nan_false.
  rewrite leb_spec, ltb_spec. unfold SFleb, SFltb.
  rewrite (SFcompare_antisym (Prim2SF a) (Prim2SF b)).
  destruct (SFcompare_some _ _ Ha Hb) as [[] ->]; cbn; congruence.
Qed.

Lemma float_not_ltb (a b : float) :
  PrimFloat.is_nan a = false -> PrimFloat.is_nan b = false ->
  PrimFloat.ltb a b = false -> PrimFloat.leb b a = true.
Proof.
  intros Ha%is_nan_false Hb%is_nan_false.
  rewrite leb_spec, ltb_spec. unfold SFleb, SFltb.
  rewrite (SFcompare_antisym (Prim2SF a) (Prim2SF b)).
  destruct (SFcompare_some _ _ Ha Hb) as [[] ->]; cbn; congruence.
Qed.

(** X1. Where no [nan] is involved the guards are exact: [withdraw] succeeds
    when [0 < amount <= balance] and only then, so it never pays out more
    than the balance; [deposit] succeeds when [0 < amount] and only then. *)
Theorem success_is_exact (self : Account) (amount : float) (h : heap) :
  PrimFloat.is_nan amount = false ->
  (PrimFloat.is_nan (balance self) = false ->
   fst (fst (fst (withdraw self amount h))) = true
   <-> PrimFloat.ltb 0 amount = true
       /\ PrimFloat.leb amount (balance self) = true)
  /\ (fst (fst (fst (deposit self amount h))) = true
      <-> PrimFloat.ltb 0 amount = true).
Proof.
  intros Ha. assert (PrimFloat.is_nan 0 = false) as H0 by reflexivity. split.
  - intros Hb. unfold withdraw.
    destruct (PrimFloat.leb amount 0) eqn:Hle.
    { cbn. split; [discriminate|]. intros [Hpos _].
      apply float_ltb_leb in Hpos. congruence. }
    destruct (PrimFloat.ltb (balance self) amount) eqn:Hlt; cbn.
    + split; [discriminate|]. intros [_ Hfunds].
      apply float_leb_ltb in Hfunds. congruence.
    + split; [|reflexivity]. intros _. split.
      * apply float_not_leb; assumption.
      * apply float_not_ltb; assumption.
  - unfold deposit. destruct (PrimFloat.leb amount 0) eqn:Hle; cbn.
    + split; [discriminate|]. intros Hpos.
      apply float_ltb_leb in Hpos. congruence.
    + split; [|reflexivity]. intros _. apply float_not_leb; assumption.
Qed.

Lemma success_is_exact_witness :
  fst (fst (fst (withdraw atm_account 1000 atm_heap))) = true
  /\ ~ fst (fst (fst (withdraw atm_account 0x1.f400000000001p+9 atm_heap))) = true
  /\ fst (fst (fst (deposit atm_account 0x1p-1074 atm_heap))) = true.
Proof.
  split; [|split].
  - apply (success_is_exact atm_account 1000 atm_heap); [reflexivity ..|].
    split; reflexivity.
  - intros H.
    apply (success_is_exact atm_account 0x1.f400000000001p+9 atm_heap) in H;
      [|reflexivity ..].
    destruct H as [_ H]. vm_compute in H. discriminate.
  - apply (success_is_exact atm_account 0x1p-1074 atm_heap); reflexivity.
Defined.

(** X2. A deposit of any positive amount goes through, whatever the balance:
    the new balance is the binary64 sum [balance + amount], one record,
    ["Deposited $"] and the amount to two decimals, is appended to the
    history, the PIN and every other list are untouched, and what is
    returned is [True] with a message that gives the new balance. *)
Theorem deposit_succeeds (self : Account) (amount : float) (h : heap)
    (records : list Str.t) :
  PrimFloat.ltb 0 amount = true ->
  h !! transaction_history self = Some records ->
  exists (self' : Account) (h' : heap),
    deposit self amount h
    = ((true,
        Str.lit "Successfully deposited $" ++ Float.format_2f amount
          ++ Str.lit ". New balance: $" ++ Float.format_2f (balance self')),
       self', h')
    /\ balance self' = PrimFloat.add (balance self) amount
    /\ pin self' = pin self
    /\ transaction_history self' = transaction_history self
    /\ h' !! transaction_history self
       = Some (records ++ [Str.lit "Deposited $" ++ Float.format_2f amount])
    /\ (forall l : loc, l <> transaction_history self -> h' !! l = h !! l).
Proof.
  intros Hpos Hrec.
  rewrite (deposit_passes self amount h (float_ltb_leb _ _ Hpos)).
  exists (set_balance self (PrimFloat.add (balance self) amount)),
    (list_append (transaction_history self)
       (Str.lit "Deposited $" ++ Float.format_2f amount) h).
  split; [reflexivity|]. cbn.
  repeat split.
  - apply list_append_lookup, Hrec.
  - intros l Hl. unfold list_append. apply lookup_alter_ne. congruence.
Qed.

Lemma deposit_succeeds_witness :
  exists (self' : Account) (h' : heap),
    deposit atm_account 50 atm_heap
    = ((true, Str.lit "Successfully deposited $50.00. New balance: $1050.00"),
       self', h')
    /\ balance self' = 1050%float
    /\ h' !! 1%positive = Some [Str.lit "Deposited $50.00"].
Proof.
  destruct (deposit_succeeds atm_account 50 atm_heap [])
    as (self' & h' & Hd & Hb & _ & _ & Hh & _); try reflexivity.
  exists self', h'. rewrite Hd, Hb. split; [|split].
  - reflexivity.
  - reflexivity.
  - exact Hh.
Defined.

(** *** The balance is never negative *)

Lemma run_never_negative_witness :
  PrimFloat.ltb
    (balance
       (snd (fst (run [Withdraw 1000; Deposit nan; Withdraw infinity; Deposit 5]
                    atm_account atm_heap)))) 0 = false.
Proof.
  destruct (run [Withdraw 1000; Deposit nan; Withdraw infinity; Deposit 5]
              atm_account atm_heap) as [[trace self'] h'] eqn:Hr.
  exact (run_never_negative _ atm_account self' atm_heap h' trace eq_refl Hr).
Defined.

(** *** Who can change the PIN *)

Lemma invoke_keeps_pin (c : call) (self self' : Account) (h h' : heap)
    (v : value) :
  presents (pin self) c = false ->
  invoke c self h = (v, self', h') -> pin self' = pin self.
Proof.
  destruct c as [|amount|amount|old_pin new_pin|]; cbn.
  - intros _. returned. reflexivity.
  - intros _. unfold withdraw.
    destruct (PrimFloat.leb amount 0); [|destruct (PrimFloat.ltb _ amount)];
      returned; reflexivity.
  - intros _. unfold deposit. destruct (PrimFloat.leb amount 0);
      returned; reflexivity.
  - intros Hp. unfold change_pin. rewrite Hp. cbn. returned. reflexivity.
  - intros _. returned. reflexivity.
Qed.

(** X4. The PIN cannot be changed without the PIN: after any sequence of
    calls of which no [change_pin] presents the stored PIN as the current
    one, the stored PIN is the same. *)
Theorem pin_needs_current_pin (cs : list call) :
  forall (self self' : Account) (h h' : heap) (trace : list (call * value)),
  existsb (presents (pin self)) cs = false ->
  run cs self h = (trace, self', h') ->
  pin self' = pin self.
Proof.
  induction cs as [|c cs IH]; intros self self' h h' trace; cbn.
  - intros _. returned. reflexivity.
  - rewrite orb_false_iff. intros [Hc Hcs].
    destruct (invoke c self h) as [[v self1] h1] eqn:Hi.
    destruct (run cs self1 h1) as [[vs self2] h2] eqn:Hr.
    returned.
    pose proof (invoke_keeps_pin c self self1 h h1 v Hc Hi) as Hp.
    rewrite <- Hp in Hcs |- *. exact (IH self1 self2 h1 h2 vs Hcs Hr).
Qed.

Lemma pin_needs_current_pin_witness :
  pin (snd (fst (run [ChangePin (Str.lit "0000") (Str.lit "9999");
                      ChangePin (Str.lit "9999") (Str.lit "1234");
                      ChangePin (Str.lit "1243") (Str.lit "0000");
                      Withdraw 10]
                   atm_account atm_heap)))
  = Str.lit "1234".
Proof.
  destruct (run [ChangePin (Str.lit "0000") (Str.lit "9999");
                 ChangePin (Str.lit "9999") (Str.lit "1234");
                 ChangePin (Str.lit "1243") (Str.lit "0000");
                 Withdraw 10] atm_account atm_heap)
    as [[trace self'] h'] eqn:Hr.
  refine (pin_needs_current_pin _ atm_account self' atm_heap h' trace _ Hr).
  reflexivity.
Defined.

(** X5. The stored PIN always passes the test of [change_pin]: when the PIN
    of the account is four characters of which [isdigit] holds, so it is
    after any sequence of calls, whatever their arguments. *)
Theorem stored_pin_passes_test (cs : list call) :
  forall (self self' : Account) (h h' : heap) (trace : list (call * value)),
  passes_pin_test (pin self) = true ->
  run cs self h = (trace, self', h') ->
  passes_pin_test (pin self') = true.
Proof.
  induction cs as [|c cs IH]; intros self self' h h' trace Hpin; cbn.
  - returned. exact Hpin.
  - destruct (invoke c self h) as [[v self1] h1] eqn:Hi.
    destruct (run cs self1 h1) as [[vs self2] h2] eqn:Hr.
    returned. apply (IH self1 self2 h1 h2 vs); [|exact Hr].
    destruct (invoke_pin _ _ _ _ _ _ Hi) as [-> | (o & n & -> & -> & Hd & Hl)];
      [exact Hpin|].
    unfold passes_pin_test. rewrite Hd, Hl. reflexivity.
Qed.

Lemma stored_pin_passes_test_witness :
  passes_pin_test
    (pin (snd (fst (run [ChangePin (Str.lit "1234") [178; 178; 178; 178]%N;
                         ChangePin [178; 178; 178; 178]%N (Str.lit "12345");
                         ChangePin [178; 178; 178; 178]%N (Str.lit "007x")]
                      atm_account atm_heap)))) = true.
Proof.
  destruct (run [ChangePin (Str.lit "1234") [178; 178; 178; 178]%N;
                 ChangePin [178; 178; 178; 178]%N (Str.lit "12345");
                 ChangePin [178; 178; 178; 178]%N (Str.lit "007x")]
              atm_account atm_heap) as [[trace self'] h'] eqn:Hr.
  exact (stored_pin_passes_test _ atm_account self' atm_heap h' trace eq_refl Hr).
Defined.

(** X7. After a successful [change_pin] the new PIN is the one that
    authenticates: a [change_pin] that presents anything else, the old
    PIN too when it differs, is an authentication failure, and one that
    presents the new PIN is none. *)
Theorem new_pin_replaces_old (self self' : Account) (old_pin new_pin : Str.t)
    (h h' : heap) (message : Str.t) :
  change_pin self old_pin new_pin h = ((true, message), self', h') ->
  pin self' = new_pin
  /\ (forall (x y : Str.t) (h2 : heap),
      x <> new_pin ->
      rejected AuthenticationFailed self' h2 (change_pin self' x y h2))
  /\ (forall (y : Str.t) (h2 : heap),
      ~ fails_with AuthenticationFailed
          (fst (fst (change_pin self' new_pin y h2)))).
Proof.
  unfold change_pin at 1.
  destruct (negb _); [discriminate|]. destruct (orb _ _); [discriminate|].
  intros [= <- <- <-]. cbn [pin set_pin]. split; [reflexivity|]. split.
  - intros x y h2 Hx. rewrite change_pin_wrong_pin by exact Hx.
    eexists. split; [reflexivity|]. split; [reflexivity | left; reflexivity].
  - intros y h2 [Hf Hin]. unfold change_pin in Hf, Hin. cbn [pin set_pin] in *.
    rewrite (proj2 (Str_eqb_eq new_pin new_pin) eq_refl) in Hf, Hin.
    cbn [negb] in *. destruct (orb _ _); cbn in Hf, Hin; [|discriminate].
    destruct Hin as [Hin|[]]. vm_compute in Hin. discriminate.
Qed.

Lemma new_pin_replaces_old_witness :
  rejected AuthenticationFailed (set_pin atm_account (Str.lit "5678")) atm_heap
    (change_pin (set_pin atm_account (Str.lit "5678")) (Str.lit "1234")
       (Str.lit "0000") atm_heap).
Proof.
  apply (new_pin_replaces_old atm_account (set_pin atm_account (Str.lit "5678"))
           (Str.lit "1234") (Str.lit "5678") atm_heap
           (list_append 1%positive (Str.lit "PIN changed") atm_heap)
           (Str.lit "PIN successfully changed.") eq_refl).
  vm_compute. discriminate.
Defined.

(** *** One history for each account *)

(** A call touches no list but the history of its account. *)
Lemma invoke_frame (c : call) (self self' : Account) (h h' : heap) (v : value) :
  invoke c self h = (v, self', h') ->
  transaction_history self' = transaction_history self
  /\ forall l : loc, l <> transaction_history self -> h' !! l = h !! l.
Proof.
  assert (forall (x : Str.t) (l : loc),
             l <> transaction_history self ->
             list_append (transaction_history self) x h !! l = h !! l) as Hne.
  { intros x l Hl. unfold list_append. apply lookup_alter_ne. congruence. }
  destruct c as [|amount|amount|old_pin new_pin|]; cbn.
  - returned. auto.
  - unfold withdraw.
    destruct (PrimFloat.leb amount 0); [|destruct (PrimFloat.ltb _ amount)];
      returned; cbn; auto.
  - unfold deposit. destruct (PrimFloat.leb amount 0); returned; cbn; auto.
  - unfold change_pin. destruct (negb _); [|destruct (orb _ _)];
      returned; cbn; auto.
  - returned. auto.
Qed.

Lemma run_frame (cs : list call) :
  forall (self self' : Account) (h h' : heap) (trace : list (call * value)),
  run cs self h = (trace, self', h') ->
  transaction_history self' = transaction_history self
  /\ forall l : loc, l <> transaction_history self -> h' !! l = h !! l.
Proof.
  induction cs as [|c cs IH]; intros self self' h h' trace; cbn.
  - returned. auto.
  - destruct (invoke c self h) as [[v self1] h1] eqn:Hi.
    destruct (run cs self1 h1) as [[vs self2] h2] eqn:Hr.
    returned.
    destruct (invoke_frame _ _ _ _ _ _ Hi) as [Ht1 Hf1].
    destruct (IH _ _ _ _ _ Hr) as [Ht2 Hf2].
    split; [congruence|]. intros l Hl.
    rewrite Hf2 by congruence. apply Hf1, Hl.
Qed.

(** X6. Two accounts that are constructed one after the other have two
    lists: whatever is called on one of them, with whatever arguments,
    the history of the other stays as it is, here empty. *)
Theorem accounts_do_not_share_history (pin1 pin2 : Str.t)
    (balance1 balance2 : float) (h0 : heap) (cs : list call) :
  let first := __init__ pin1 balance1 h0 in
  let second := __init__ pin2 balance2 (snd first) in
  transaction_history (fst first) <> transaction_history (fst second)
  /\ snd (run cs (fst second) (snd second)) !! transaction_history (fst first)
     = Some []
  /\ snd (run cs (fst first) (snd second)) !! transaction_history (fst second)
     = Some [].
Proof.
  intros first second.
  destruct (init_allocates pin1 balance1 h0) as [_ H1].
  destruct (init_allocates pin2 balance2 (snd first)) as [H2n H2].
  fold first in H1. fold second in H2n, H2.
  assert (transaction_history (fst first) <> transaction_history (fst second))
    as Hne by congruence.
  assert (snd second !! transaction_history (fst first) = Some []) as H1'.
  { unfold second at 1. cbn [__init__ snd].
    rewrite lookup_insert_ne; [exact H1|].
    intros Heq. apply Hne. symmetry. exact Heq. }
  split; [exact Hne|]. split.
  - destruct (run cs (fst second) (snd second)) as [[trace self'] h'] eqn:Hr.
    destruct (run_frame _ _ _ _ _ _ Hr) as [_ Hf]. cbn [snd].
    rewrite Hf; [exact H1' | exact Hne].
  - destruct (run cs (fst first) (snd second)) as [[trace self'] h'] eqn:Hr.
    destruct (run_frame _ _ _ _ _ _ Hr) as [_ Hf]. cbn [snd].
    rewrite Hf; [exact H2 | congruence].
Qed.

(** ** The session *)

(** The account of the session is the one that [atm_simulation]
    constructs. *)
Lemma atm_init : __init__ (Str.lit "1234") 1000 ∅ = (atm_account, atm_heap).
Proof. reflexivity. Qed.

Lemma state_after_cons (c : call) (cs : list call) (self : Account) (h : heap) :
  state_after (c :: cs) self h
  = state_after cs (snd (fst (invoke c self h))) (snd (invoke c self h)).
Proof.
  unfold state_after. cbn [run].
  destruct (invoke c self h) as [[v self1] h1]. cbn [fst snd].
  destruct (run cs self1 h1) as [[vs self2] h2]. reflexivity.
Qed.

(** A turn of the loop reads one, two or three lines: what holds of the
    lines that are left after each of them holds of all. *)
Lemma turns_ind (P : list Str.t -> Prop) :
  P [] ->
  (forall (choice : Str.t) (lines1 : list Str.t),
      P lines1 ->
      (forall (a : Str.t) (lines2 : list Str.t),
          lines1 = a :: lines2 -> P lines2) ->
      (forall (a b : Str.t) (lines3 : list Str.t),
          lines1 = a :: b :: lines3 -> P lines3) ->
      P (choice :: lines1)) ->
  forall lines : list Str.t, P lines.
Proof.
  intros Hnil Hturn lines.
  assert (forall (n : nat) (l : list Str.t), length l <= n -> P l) as Hall.
  { induction n as [|n IH]; intros [|choice lines1] Hlen; cbn in Hlen;
      try exact Hnil; try lia.
    apply Hturn.
    - apply IH. lia.
    - intros a lines2 ->. apply IH. cbn in Hlen. lia.
    - intros a b lines3 ->. apply IH. cbn in Hlen. lia. }
  apply (Hall (length lines)). lia.
Qed.

(** X15. The session is the calls that its lines select: at its end the
    account and the heap are those after [session_calls]. *)
Lemma menu_loop_state (parse_float : Str.t -> option float)
    (lines : list Str.t) :
  forall (account : Account) (h : heap),
  final_state (menu_loop parse_float lines account h)
  = state_after (session_calls parse_float lines) account h.
Proof.
  induction lines as [|choice lines1 IH1 IH2 IH3] using turns_ind;
    intros account h; cbn [menu_loop session_calls]; [reflexivity|].
  destruct (Str.eqb choice (Str.lit "1")).
  { rewrite state_after_cons. apply IH1. }
  destruct (Str.eqb choice (Str.lit "2")).
  { destruct lines1 as [|amount_str lines2]; [reflexivity|].
    destruct (parse_float amount_str) as [amount|].
    - rewrite state_after_cons. cbn [invoke].
      destruct (withdraw account amount h) as [[r account1] h1].
      apply (IH2 _ _ eq_refl).
    - apply (IH2 _ _ eq_refl). }
  destruct (Str.eqb choice (Str.lit "3")).
  { destruct lines1 as [|amount_str lines2]; [reflexivity|].
    destruct (parse_float amount_str) as [amount|].
    - rewrite state_after_cons. cbn [invoke].
      destruct (deposit account amount h) as [[r account1] h1].
      apply (IH2 _ _ eq_refl).
    - apply (IH2 _ _ eq_refl). }
  destruct (Str.eqb choice (Str.lit "4")).
  { destruct lines1 as [|old_pin [|new_pin lines3]]; [reflexivity..|].
    rewrite state_after_cons. cbn [invoke].
    destruct (change_pin account old_pin new_pin h) as [[r account1] h1].
    apply (IH3 _ _ _ eq_refl). }
  destruct (Str.eqb choice (Str.lit "5")).
  { rewrite state_after_cons. apply IH1. }
  destruct (Str.eqb choice (Str.lit "6")); [reflexivity|].
  apply IH1.
Qed.

(** *** Who gets to the menu *)

(** X8. Without the PIN there is no menu: when none of the first three lines
    is ["1234"], the session writes the welcome, a refusal for each line
    it read, and then either the lock-out message, after three lines, or
    a last prompt that finds no line. It reads no more than three lines,
    whatever follows them, and leaves the account as it was constructed. *)
Theorem no_access_without_pin (parse_float : Str.t -> option float)
    (lines : list Str.t) :
  knows_pin lines = false ->
  atm_simulation parse_float lines
  = {| written :=
         [print (Str.lit "Welcome to the ATM Simulation.")]
           ++ concat (repeat refusal (Nat.min 3 (length lines)))
           ++ [if Nat.leb 3 (length lines)
               then print (Str.lit "Too many incorrect PIN attempts. Exiting.")
               else Str.lit "Please enter your 4-digit PIN: "];
       unread := skipn 3 lines;
       final_account := atm_account;
       final_heap := atm_heap;
       status := if Nat.leb 3 (length lines) then Returned else EOFError |}.
Proof.
  unfold knows_pin, atm_simulation. rewrite atm_init.
  destruct lines as [|a [|b [|c rest]]]; cbn [firstn existsb pin_attempts];
    change (pin atm_account) with (Str.lit "1234");
    rewrite ?orb_false_iff; intros H; decompose [and] H; clear H;
    repeat match goal with H : Str.eqb _ _ = false |- _ => rewrite H; clear H end;
    reflexivity.
Qed.

Lemma no_access_without_pin_witness :
  status (atm_simulation parse_integer
            [Str.lit "1243"; Str.lit "0000"; Str.lit "12345"; Str.lit "1234";
             Str.lit "2"; Str.lit "1000"]) = Returned
  /\ unread (atm_simulation parse_integer
               [Str.lit "1243"; Str.lit "0000"; Str.lit "12345"; Str.lit "1234";
                Str.lit "2"; Str.lit "1000"])
     = [Str.lit "1234"; Str.lit "2"; Str.lit "1000"]
  /\ final_account (atm_simulation parse_integer
                      [Str.lit "1243"; Str.lit "0000"; Str.lit "12345";
                       Str.lit "1234"; Str.lit "2"; Str.lit "1000"])
     = atm_account.
Proof.
  rewrite (no_access_without_pin parse_integer
             [Str.lit "1243"; Str.lit "0000"; Str.lit "12345"; Str.lit "1234";
              Str.lit "2"; Str.lit "1000"] eq_refl).
  repeat split.
Defined.

(** X9. With the PIN at the first, second or third attempt the menu opens:
    after a refusal for each wrong line and the acceptance, the session
    is the loop on the lines that follow, with the account as it was
    constructed. *)
Theorem pin_opens_menu (parse_float : Str.t -> option float)
    (wrong rest : list Str.t) :
  length wrong < 3 ->
  knows_pin wrong = false ->
  atm_simulation parse_float (wrong ++ Str.lit "1234" :: rest)
  = after
      ([print (Str.lit "Welcome to the ATM Simulation.")]
         ++ concat (repeat refusal (length wrong))
         ++ [Str.lit "Please enter your 4-digit PIN: ";
             print (Str.lit "PIN accepted. Access granted." ++ newline)])
      (menu_loop parse_float rest atm_account atm_heap).
Proof.
  unfold knows_pin, atm_simulation. rewrite atm_init.
  destruct wrong as [|a [|b [|c w]]]; cbn [length]; try lia; intros _;
    cbn [firstn existsb pin_attempts app];
    change (pin atm_account) with (Str.lit "1234");
    change (Str.eqb (Str.lit "1234") (Str.lit "1234")) with true;
    cbn [existsb]; rewrite ?orb_false_iff; intros H; decompose [and] H; clear H;
    repeat match goal with H : Str.eqb _ _ = false |- _ => rewrite H; clear H end;
    reflexivity.
Qed.

Lemma pin_opens_menu_witness :
  atm_simulation parse_integer
    [Str.lit "4321"; Str.lit "1234"; Str.lit "6"; Str.lit "1"]
  = {| written :=
         [print (Str.lit "Welcome to the ATM Simulation.");
          Str.lit "Please enter your 4-digit PIN: ";
          print (Str.lit "Incorrect PIN. Please try again." ++ newline);
          Str.lit "Please enter your 4-digit PIN: ";
          print (Str.lit "PIN accepted. Access granted." ++ newline)]
           ++ menu_text
           ++ [print [];
               print (Str.lit "Thank you for using the ATM Simulation. Goodbye!")];
       unread := [Str.lit "1"];
       final_account := atm_account;
       final_heap := atm_heap;
       status := Returned |}.
Proof.
  etransitivity.
  - refine (pin_opens_menu parse_integer [Str.lit "4321"]
              [Str.lit "6"; Str.lit "1"] _ _); [cbn; lia | reflexivity].
  - reflexivity.
Defined.

(** *** What a session keeps *)

(** What every call keeps, the loop keeps. *)
Lemma menu_loop_invariant (I : Account -> heap -> Prop)
    (parse_float : Str.t -> option float) :
  (forall (c : call) (self : Account) (h : heap),
      I self h -> I (snd (fst (invoke c self h))) (snd (invoke c self h))) ->
  forall (lines : list Str.t) (account : Account) (h : heap),
  I account h ->
  I (final_account (menu_loop parse_float lines account h))
    (final_heap (menu_loop parse_float lines account h)).
Proof.
  intros Hstep lines.
  induction lines as [|choice lines1 IH1 IH2 IH3] using turns_ind;
    intros account h HI; cbn [menu_loop]; [exact HI|].
  cbn [after final_account final_heap].
  destruct (Str.eqb choice (Str.lit "1")); [exact (IH1 _ _ HI)|].
  destruct (Str.eqb choice (Str.lit "2")).
  { destruct lines1 as [|amount_str lines2]; [exact HI|].
    destruct (parse_float amount_str) as [amount|].
    - pose proof (Hstep (Withdraw amount) account h HI) as H1. cbn [invoke] in H1.
      destruct (withdraw account amount h) as [[r account1] h1].
      exact (IH2 _ _ eq_refl _ _ H1).
    - exact (IH2 _ _ eq_refl _ _ HI). }
  destruct (Str.eqb choice (Str.lit "3")).
  { destruct lines1 as [|amount_str lines2]; [exact HI|].
    destruct (parse_float amount_str) as [amount|].
    - pose proof (Hstep (Deposit amount) account h HI) as H1. cbn [invoke] in H1.
      destruct (deposit account amount h) as [[r account1] h1].
      exact (IH2 _ _ eq_refl _ _ H1).
    - exact (IH2 _ _ eq_refl _ _ HI). }
  destruct (Str.eqb choice (Str.lit "4")).
  { destruct lines1 as [|old_pin [|new_pin lines3]]; [exact HI..|].
    pose proof (Hstep (ChangePin old_pin new_pin) account h HI) as H1.
    cbn [invoke] in H1.
    destruct (change_pin account old_pin new_pin h) as [[r account1] h1].
    exact (IH3 _ _ _ eq_refl _ _ H1). }
  destruct (Str.eqb choice (Str.lit "5")); [exact (IH1 _ _ HI)|].
  destruct (Str.eqb choice (Str.lit "6")); [exact HI | exact (IH1 _ _ HI)].
Qed.

(** X10. Whatever is typed and whatever [float] makes of it, at the end of the
    session the balance is not negative (it is zero, positive or [nan]),
    the PIN passes the test of [change_pin], and the history of the
    account holds nothing but records of calls. *)
Theorem session_keeps_invariants (parse_float : Str.t -> option float)
    (lines : list Str.t) :
  PrimFloat.ltb
    (balance (final_account (atm_simulation parse_float lines))) 0 = false
  /\ passes_pin_test
       (pin (final_account (atm_simulation parse_float lines))) = true
  /\ exists records : list Str.t,
       final_heap (atm_simulation parse_float lines)
         !! transaction_history
              (final_account (atm_simulation parse_float lines))
       = Some records
       /\ Forall (fun r => exists c : call, record_of c = [r]) records.
Proof.
  set (I := fun (self : Account) (h : heap) =>
              PrimFloat.ltb (balance self) 0 = false
              /\ passes_pin_test (pin self) = true
              /\ exists records : list Str.t,
                   h !! transaction_history self = Some records
                   /\ Forall (fun r => exists c : call, record_of c = [r])
                        records).
  assert (I atm_account atm_heap) as Hstart.
  { split; [reflexivity|]. split; [reflexivity|].
    exists []. split; [reflexivity | constructor]. }
  change (I (final_account (atm_simulation parse_float lines))
            (final_heap (atm_simulation parse_float lines))).
  unfold atm_simulation. rewrite atm_init.
  destruct (pin_attempts 3 lines atm_account) as [[chunks rest] []];
    cbn [after final_account final_heap]; [|exact Hstart..].
  apply menu_loop_invariant; [|exact Hstart]. clear. subst I.
  intros c self h (Hb & Hp & records & Hrec & Hall).
  destruct (invoke c self h) as [[v self'] h'] eqn:Hi. cbn [fst snd].
  split; [exact (balance_never_negative c self self' h h' v Hb Hi)|]. split.
  - destruct (invoke_pin _ _ _ _ _ _ Hi) as [-> | (o & n & _ & -> & Hd & Hl)];
      [exact Hp|].
    unfold passes_pin_test. rewrite Hd, Hl. reflexivity.
  - pose proof (invoke_effect c self self' h h' v records Hrec Hi) as He.
    destruct (succeeded (c, v)).
    + destruct He as (r & Hr & Hth & _ & Hh). rewrite Hth.
      exists (records ++ [r]). split; [exact Hh|].
      apply Forall_app. split; [exact Hall|]. constructor; [eauto | constructor].
    + destruct He as [-> ->]. eauto.
Qed.

(** *** How a session ends *)

(** The two ends of a session. *)
Lemma after_ends (chunks : list Str.t) (s : session) :
  match status s with
  | EOFError => unread s = []
  | Returned =>
      exists (before : list Str.t) (farewell : Str.t),
        written s = before ++ [farewell] /\ In farewell farewells
  end ->
  match status (after chunks s) with
  | EOFError => unread (after chunks s) = []
  | Returned =>
      exists (before : list Str.t) (farewell : Str.t),
        written (after chunks s) = before ++ [farewell] /\ In farewell farewells
  end.
Proof.
  cbn [after status unread written]. destruct (status s); [|exact id].
  intros (before & farewell & -> & Hin).
  exists (chunks ++ before), farewell. rewrite app_assoc. auto.
Qed.

Lemma menu_loop_ends (parse_float : Str.t -> option float)
    (lines : list Str.t) :
  forall (account : Account) (h : heap),
  match status (menu_loop parse_float lines account h) with
  | EOFError => unread (menu_loop parse_float lines account h) = []
  | Returned =>
      exists (before : list Str.t) (farewell : Str.t),
        written (menu_loop parse_float lines account h) = before ++ [farewell]
        /\ In farewell farewells
  end.
Proof.
  induction lines as [|choice lines1 IH1 IH2 IH3] using turns_ind;
    intros account h; cbn [menu_loop]; [reflexivity|].
  apply after_ends.
  destruct (Str.eqb choice (Str.lit "1")); [apply after_ends, IH1|].
  destruct (Str.eqb choice (Str.lit "2")).
  { destruct lines1 as [|amount_str lines2]; [reflexivity|].
    apply after_ends. destruct (parse_float amount_str) as [amount|].
    - destruct (withdraw account amount h) as [[r account1] h1].
      apply after_ends, (IH2 _ _ eq_refl).
    - apply after_ends, (IH2 _ _ eq_refl). }
  destruct (Str.eqb choice (Str.lit "3")).
  { destruct lines1 as [|amount_str lines2]; [reflexivity|].
    apply after_ends. destruct (parse_float amount_str) as [amount|].
    - destruct (deposit account amount h) as [[r account1] h1].
      apply after_ends, (IH2 _ _ eq_refl).
    - apply after_ends, (IH2 _ _ eq_refl). }
  destruct (Str.eqb choice (Str.lit "4")).
  { destruct lines1 as [|old_pin [|new_pin lines3]]; [reflexivity..|].
    destruct (change_pin account old_pin new_pin h) as [[r account1] h1].
    apply after_ends, (IH3 _ _ _ eq_refl). }
  destruct (Str.eqb choice (Str.lit "5")); [apply after_ends, IH1|].
  destruct (Str.eqb choice (Str.lit "6")); [|apply after_ends, IH1].
  cbn [status written]. exists [], (print (Str.lit "Thank you for using the ATM Simulation. Goodbye!")).
  split; [reflexivity | left; reflexivity].
Qed.

(** X11. A session ends in one of two ways, whatever is typed. It returns, and
    then the last thing it wrote is the farewell of choice 6 or the
    lock-out message; or an [input] found no line, and then every line
    has been read. *)
Theorem session_ends (parse_float : Str.t -> option float)
    (lines : list Str.t) :
  match status (atm_simulation parse_float lines) with
  | EOFError => unread (atm_simulation parse_float lines) = []
  | Returned =>
      exists (before : list Str.t) (farewell : Str.t),
        written (atm_simulation parse_float lines) = before ++ [farewell]
        /\ In farewell farewells
  end.
Proof.
  unfold atm_simulation. rewrite atm_init. apply after_ends.
  assert (forall n ls,
             let '(chunks, rest, end_) := pin_attempts n ls atm_account in
             match end_ with
             | Granted => True
             | LockedOut =>
                 exists before,
                   chunks
                   = before
                       ++ [print (Str.lit "Too many incorrect PIN attempts. Exiting.")]
             | NoLine => rest = []
             end) as Hpin.
  { induction n as [|n IH]; intros ls; cbn [pin_attempts].
    - exists []. reflexivity.
    - destruct ls as [|entered ls']; [reflexivity|].
      destruct (Str.eqb entered (pin atm_account)); [exact I|].
      specialize (IH ls').
      destruct (pin_attempts n ls' atm_account) as [[chunks rest] []];
        [exact I | | exact IH].
      destruct IH as [before ->]. eexists (_ :: _ :: before). reflexivity. }
  specialize (Hpin 3 lines).
  destruct (pin_attempts 3 lines atm_account) as [[chunks rest] []].
  - apply after_ends, menu_loop_ends.
  - destruct Hpin as [before ->]. cbn [after status written].
    exists before, (print (Str.lit "Too many incorrect PIN attempts. Exiting.")).
    rewrite app_nil_r. split; [reflexivity | right; left; reflexivity].
  - cbn [after status unread]. exact Hpin.
Qed.

(** *** What option 5 shows *)





(** *** What the loop cannot do *)

Lemma change_pin_keeps_balance (self : Account) (old_pin new_pin : Str.t)
    (h : heap) :
  balance (snd (fst (change_pin self old_pin new_pin h))) = balance self.
Proof.
  unfold change_pin. destruct (negb _); [|destruct (orb _ _)]; reflexivity.
Qed.

(** X13. An amount that [float] refuses moves no money: when [float] raises
    [ValueError] on every line that is read at a prompt for an amount,
    the balance at the end of the loop is the balance at its start,
    whatever else is typed. *)
Theorem refused_amounts_move_nothing (parse_float : Str.t -> option float)
    (lines : list Str.t) :
  Forall (fun s => parse_float s = None) (amount_lines lines) ->
  forall (account : Account) (h : heap),
  balance (final_account (menu_loop parse_float lines account h))
  = balance account.
Proof.
  induction lines as [|choice lines1 IH1 IH2 IH3] using turns_ind;
    cbn [menu_loop amount_lines]; [reflexivity|].
  destruct (Str.eqb choice (Str.lit "1")); [exact IH1|].
  destruct (Str.eqb choice (Str.lit "2")); cbn [orb].
  { destruct lines1 as [|amount_str lines2]; [reflexivity|].
    intros Hall account h. inversion Hall as [|? ? Hnone Hrest]; subst.
    rewrite Hnone. apply (IH2 _ _ eq_refl Hrest). }
  destruct (Str.eqb choice (Str.lit "3")).
  { destruct lines1 as [|amount_str lines2]; [reflexivity|].
    intros Hall account h. inversion Hall as [|? ? Hnone Hrest]; subst.
    rewrite Hnone. apply (IH2 _ _ eq_refl Hrest). }
  destruct (Str.eqb choice (Str.lit "4")).
  { destruct lines1 as [|old_pin [|new_pin lines3]]; [reflexivity..|].
    intros Hall account h.
    pose proof (change_pin_keeps_balance account old_pin new_pin h) as Hb.
    destruct (change_pin account old_pin new_pin h) as [[r account1] h1].
    cbn [fst snd] in Hb. rewrite <- Hb. apply (IH3 _ _ _ eq_refl Hall). }
  destruct (Str.eqb choice (Str.lit "5")); [exact IH1|].
  destruct (Str.eqb choice (Str.lit "6")); [reflexivity | exact IH1].
Qed.

Lemma refused_amounts_move_nothing_witness :
  balance
    (final_account
       (menu_loop parse_integer
          [Str.lit "2"; Str.lit "two hundred"; Str.lit "3"; Str.lit "-50";
           Str.lit "4"; Str.lit "1234"; Str.lit "5678"; Str.lit "1"]
          atm_account atm_heap))
  = 1000%float.
Proof.
  refine (refused_amounts_move_nothing parse_integer
            [Str.lit "2"; Str.lit "two hundred"; Str.lit "3"; Str.lit "-50";
             Str.lit "4"; Str.lit "1234"; Str.lit "5678"; Str.lit "1"]
            _ atm_account atm_heap).
  repeat constructor.
Defined.

(** X14. The choices other than 2, 3 and 4 change nothing: when none of the
    lines is one of these three, the loop leaves the account and the
    heap, so the balance, the PIN and the history, as they were, whatever
    the lines are. *)
Theorem other_choices_change_nothing (parse_float : Str.t -> option float)
    (lines : list Str.t) :
  existsb changing_choice lines = false ->
  forall (account : Account) (h : heap),
  final_state (menu_loop parse_float lines account h) = (account, h).
Proof.
  induction lines as [|choice lines1 IH]; cbn [menu_loop existsb];
    [reflexivity|].
  unfold changing_choice at 1. rewrite !orb_false_iff.
  intros [[[H2 H3] H4] Hrest] account h. rewrite H2, H3, H4.
  destruct (Str.eqb choice (Str.lit "1")); [exact (IH Hrest account h)|].
  destruct (Str.eqb choice (Str.lit "5")); [exact (IH Hrest account h)|].
  destruct (Str.eqb choice (Str.lit "6")); [reflexivity|].
  exact (IH Hrest account h).
Qed.

Lemma other_choices_change_nothing_witness :
  final_state
    (menu_loop parse_integer
       [Str.lit "1"; Str.lit "5"; Str.lit "7"; Str.lit ""; Str.lit "22";
        Str.lit "6"; Str.lit "9"]
       atm_account atm_heap)
  = (atm_account, atm_heap).
Proof.
  apply (other_choices_change_nothing parse_integer
           [Str.lit "1"; Str.lit "5"; Str.lit "7"; Str.lit ""; Str.lit "22";
            Str.lit "6"; Str.lit "9"]).
  reflexivity.
Defined.
